(** * AutoTest: the plan / generate / heal workflow of
      [playwright_langgraph_agent.py] and the HTTP wrapper of [api_app.py].

    The development is a shallow embedding of the two Python modules.
    Python [str] values are lists of characters; the helpers that inspect
    characters ([str.strip], [str.lower], [str.upper], the two regular
    expressions) follow Python on the ASCII range, code points above 127
    being treated as caseless, non-blank characters.  The language model,
    the tool provider and the clock are opaque collaborators: they appear
    as oracles of an environment record, and the effects of the workflow
    (directory creation, file writes, client life cycle, agent runs) are
    threaded through a state-and-exception monad. *)

From Stdlib Require Import List Ascii String Arith Lia ZArith DecimalString.
From stdpp Require Import base option list gmap strings.

Local Open Scope nat_scope.
Local Open Scope list_scope.

(** ** Text *)

Abbreviation str := (list ascii).

(** A Python string literal. *)
Definition py (s : string) : str := list_ascii_of_string s.

Definition code (c : ascii) : nat := nat_of_ascii c.

Definition in_range (lo hi : nat) (c : ascii) : bool :=
  (lo <=? code c) && (code c <=? hi).

Definition is_upper (c : ascii) : bool := in_range 65 90 c.
Definition is_lower (c : ascii) : bool := in_range 97 122 c.
Definition is_digit (c : ascii) : bool := in_range 48 57 c.

(** The character class [[a-zA-Z0-9]]. *)
Definition is_alnum (c : ascii) : bool := is_lower c || is_upper c || is_digit c.

(** The character class [[a-zA-Z0-9_+-]]. *)
Definition is_tag_char (c : ascii) : bool :=
  is_alnum c || Ascii.eqb c "_" || Ascii.eqb c "+" || Ascii.eqb c "-".

(** [str.isspace] on ASCII: TAB, LF, VT, FF, CR, FS, GS, RS, US and SPACE. *)
Definition is_space (c : ascii) : bool := in_range 9 13 c || in_range 28 32 c.

Definition lower_char (c : ascii) : ascii :=
  if is_upper c then ascii_of_nat (code c + 32) else c.

Definition upper_char (c : ascii) : ascii :=
  if is_lower c then ascii_of_nat (code c - 32) else c.

(** [text.lower()] and [text.upper()]. *)
Definition lower (s : str) : str := map lower_char s.
Definition upper (s : str) : str := map upper_char s.

Fixpoint lstrip (s : str) : str :=
  match s with
  | [] => []
  | c :: r => if is_space c then lstrip r else s
  end.

Definition rstrip (s : str) : str := rev (lstrip (rev s)).

(** [text.strip()]. *)
Definition strip (s : str) : str := rstrip (lstrip s).

(** [sep.join(parts)]. *)
Fixpoint join (sep : str) (parts : list str) : str :=
  match parts with
  | [] => []
  | [p] => p
  | p :: ps => p ++ sep ++ join sep ps
  end.

(** Python truthiness of a string: [not s] holds exactly for the empty one. *)
Definition nonempty (s : str) : bool :=
  match s with [] => false | _ => true end.

(** ** Identifiers and paths *)

(** [re.findall(r"[a-zA-Z0-9]+", s)]: the maximal runs of alphanumeric
    characters, left to right.  [cur] is the run being read. *)
Fixpoint findall_alnum_from (cur s : str) : list str :=
  match s with
  | [] => match cur with [] => [] | _ => [cur] end
  | c :: r =>
      if is_alnum c then findall_alnum_from (cur ++ [c]) r
      else match cur with
           | [] => findall_alnum_from [] r
           | _ => cur :: findall_alnum_from [] r
           end
  end.

Definition findall_alnum (s : str) : list str := findall_alnum_from [] s.

Definition slugify (text : str) : str :=
  let tokens := findall_alnum (lower text) in
  match tokens with
  | [] => py "generated-test"
  | _ => join (py "-") (take 8 tokens)
  end.

(** A naive [datetime] value, as returned by [datetime.now()]. *)
Record datetime := {
  year : Z; month : Z; day : Z;
  hour : Z; minute : Z; second : Z;
  microsecond : Z
}.

(** The ranges [datetime] enforces on its fields. *)
Definition valid_datetime (d : datetime) : Prop :=
  (1 <= year d <= 9999 /\ 1 <= month d <= 12 /\ 1 <= day d <= 31 /\
   0 <= hour d < 24 /\ 0 <= minute d < 60 /\ 0 <= second d < 60 /\
   0 <= microsecond d < 1000000)%Z.

Definition digit_char (n : Z) : ascii := ascii_of_N (Z.to_N (48 + n)).

(** The [w] low decimal digits of [n], most significant first: what the
    zero-padded directives [%Y], [%m], [%d], [%H], [%M], [%S] and [%f]
    print for a field that fits in [w] digits. *)
Fixpoint digits (w : nat) (n : Z) : str :=
  match w with
  | 0 => []
  | S w' => digits w' (n / 10)%Z ++ [digit_char (n mod 10)%Z]
  end.

(** [d.strftime("%Y%m%d-%H%M%S-%f")]. *)
Definition strftime (d : datetime) : str :=
  digits 4 (year d) ++ digits 2 (month d) ++ digits 2 (day d) ++ py "-" ++
  digits 2 (hour d) ++ digits 2 (minute d) ++ digits 2 (second d) ++ py "-" ++
  digits 6 (microsecond d).

(** [build_request_id], with the clock reading as an argument. *)
Definition build_request_id (now : datetime) (spec : str) : str :=
  slugify spec ++ py "-" ++ strftime now.



(** [default_output_path]: [request_id or slugify(spec)] picks the
    identifier unless it is [None] or empty. *)
Definition default_output_path (spec test_language : str)
    (request_id : option str) : str :=
  let ext := if decide (test_language = py "ts") then py "spec.ts" else py "spec.py" in
  let name := match request_id with
              | Some (c :: r) => c :: r
              | _ => slugify spec
              end in
  py "tests/" ++ name ++ py "." ++ ext.

Definition plan_output_path (request_id : str) : str :=
  py "specs/" ++ request_id ++ py "-plan.md".

(** ** Fenced-block extraction *)

Definition fence : str := py "```".
Definition newline : ascii := "010"%char.

Fixpoint starts_with (p s : str) : bool :=
  match p, s with
  | [], _ => true
  | a :: p', b :: s' => Ascii.eqb a b && starts_with p' s'
  | _ :: _, [] => false
  end.

(** The lazy group [(.*?)] followed by the closing fence: the text before
    the first occurrence of the fence, if there is one. *)
Fixpoint until_fence (s : str) : option str :=
  if starts_with fence s then Some []
  else match s with
       | [] => None
       | c :: r => cons c <$> until_fence r
       end.

(** The optional language tag [(?:[a-zA-Z0-9_+-]+)?].  The next pattern
    item is a line feed, which is no tag character, so the only way for the
    rest of the pattern to match is after the whole run of tag characters. *)
Fixpoint skip_tag (s : str) : str :=
  match s with
  | [] => []
  | c :: r => if is_tag_char c then skip_tag r else s
  end.

(** A match of the pattern starting at the first character of [s]; the
    result is group 1. *)
Definition match_fenced_here (s : str) : option str :=
  if starts_with fence s then
    match skip_tag (drop 3 s) with
    | c :: body => if Ascii.eqb c newline then until_fence body else None
    | [] => None
    end
  else None.

(** [re.search(pattern, s, re.S)] for the fence pattern: the match at
    the leftmost position that has one. *)
Fixpoint search_fenced (s : str) : option str :=
  match match_fenced_here s with
  | Some g => Some g
  | None => match s with
            | [] => None
            | _ :: r => search_fenced r
            end
  end.

Definition extract_fenced_block (text : str) : str :=
  match search_fenced text with
  | Some g => strip g
  | None => strip text
  end.

(** The language of the pattern, as a decomposition of the text. *)
Definition has_fenced_block (s : str) : Prop :=
  exists pre tag body post,
    s = pre ++ fence ++ tag ++ newline :: body ++ fence ++ post /\
    Forall (fun c => is_tag_char c = true) tag.

(** ** Configuration values *)

(** Values read from the JSON configuration file.  Numbers are integers. *)
Inductive atom :=
| ANone
| ABool (b : bool)
| AInt (n : Z)
| AStr (s : str).

#[global] Instance atom_eq_dec : EqDecision atom.
Proof. solve_decision. Defined.

#[local] Unset Elimination Schemes.
Inductive pyval :=
| PAtom (a : atom)
| PList (l : list pyval)
| PDict (m : gmap str pyval).
#[local] Set Elimination Schemes.

Definition PStr (s : str) : pyval := PAtom (AStr s).

(** [str(v)] for the hashable values. *)
Definition str_of_atom (a : atom) : str :=
  match a with
  | ANone => py "None"
  | ABool true => py "True"
  | ABool false => py "False"
  | AInt n => list_ascii_of_string (NilZero.string_of_int (Z.to_int n))
  | AStr s => s
  end.

Definition type_name (v : pyval) : str :=
  match v with
  | PAtom ANone => py "NoneType"
  | PAtom (ABool _) => py "bool"
  | PAtom (AInt _) => py "int"
  | PAtom (AStr _) => py "str"
  | PList _ => py "list"
  | PDict _ => py "dict"
  end.

(** Python truthiness. *)
Definition truthy (v : pyval) : bool :=
  match v with
  | PAtom ANone => false
  | PAtom (ABool b) => b
  | PAtom (AInt n) => negb (Z.eqb n 0)
  | PAtom (AStr s) => nonempty s
  | PList l => match l with [] => false | _ => true end
  | PDict m => negb (Nat.eqb (size m) 0)
  end.

(** Exceptions, that is instances of [Exception]: the class name and what
    [str(exc)] prints.  Signals that derive from [BaseException] only
    (interpreter exit, keyboard interrupt) are outside the model. *)
Record exc := Exc { exc_class : str; exc_str : str }.

Definition ValueError (msg : str) : exc := Exc (py "ValueError") msg.
Definition TypeError (msg : str) : exc := Exc (py "TypeError") msg.
Definition AttributeError (msg : str) : exc := Exc (py "AttributeError") msg.
(** [str(KeyError(key))] is the [repr] of the key; the only key looked up
    by subscript is a plain identifier. *)
Definition KeyError (key : str) : exc :=
  Exc (py "KeyError") (py "'" ++ key ++ py "'").

Definition no_attribute (v : pyval) (name : str) : exc :=
  AttributeError (py "'" ++ type_name v ++ py "' object has no attribute '"
                  ++ name ++ py "'").

(** [v.get(key, default)]; anything but a dict has no [get]. *)
Definition py_get (v : pyval) (key : str) (dflt : pyval) : exc + pyval :=
  match v with
  | PDict m => inr (default dflt (m !! key))
  | _ => inl (no_attribute v (py "get"))
  end.

(** [v[key]]. *)
Definition py_getitem (m : gmap str pyval) (key : str) : exc + pyval :=
  match m !! key with
  | Some x => inr x
  | None => inl (KeyError key)
  end.

(** The configuration file as the workflow finds it. *)
Inductive file_state :=
| Absent
| Unreadable (e : exc)
| Parsed (data : pyval).

Definition default_server_config : pyval :=
  PDict (<[py "type" := PStr (py "stdio")]>
        (<[py "command" := PStr (py "npx")]>
        (<[py "args" := PList [PStr (py "playwright"); PStr (py "run-test-mcp-server")]]>
         ∅))).

Definition load_mcp_server_config (file : file_state) (server_name : str)
  : exc + pyval :=
  match file with
  | Absent => inr default_server_config
  | Unreadable e => inl e
  | Parsed data =>
      match py_get data (py "servers") (PDict ∅) with
      | inl e => inl e
      | inr servers =>
          match py_get servers server_name (PAtom ANone) with
          | inl e => inl e
          | inr server =>
              if truthy server then inr server else inr default_server_config
          end
      end
  end.

Definition normalize_mcp_config (server_config : pyval) : exc + pyval :=
  match server_config with
  | PDict m =>
      let server_type := default (PStr (py "stdio")) (m !! py "type") in
      match server_type with
      | PAtom a =>
          if decide (a = AStr (py "stdio")) then
            inr (PDict (<[py "command" := default (PStr (py "npx")) (m !! py "command")]>
                       (<[py "args" := default (PList []) (m !! py "args")]>
                       (<[py "transport" := PStr (py "stdio")]> ∅))))
          else if decide (a = AStr (py "streamable_http")
                          \/ a = AStr (py "http")) then
            match py_getitem m (py "url") with
            | inr url =>
                inr (PDict (<[py "url" := url]>
                           (<[py "transport" := PStr (py "streamable_http")]> ∅)))
            | inl e => inl e
            end
          else
            inl (ValueError (py "Unsupported MCP server type: " ++ str_of_atom a))
      | PList _ | PDict _ =>
          (* the set membership test hashes its left operand *)
          inl (TypeError (py "unhashable type: '" ++ type_name server_type ++ py "'"))
      end
  | _ => inl (no_attribute server_config (py "get"))
  end.

(** ** Prompts *)

Definition PLANNER_PROMPT : str := py
"You are an expert web test planner using MCP browser tools.
Follow this flow:
1) If planner_setup_page is available, call it once before other actions.
2) If a start URL is provided, navigate to it before executing steps.
3) Use browser_* tools to explore the UI and identify flows.
4) Save the plan using planner_save_plan if available.
Tool calls must match the tool schema exactly. If a field expects a list/array, pass a JSON array.
Return a complete test plan in markdown in one fenced code block.".

Definition GENERATOR_PROMPT : str := py
"You are a Playwright test generator using MCP browser tools.
Follow this flow:
1) If generator_setup_page is available, call it once before other actions.
2) If a start URL is provided, navigate to it before executing steps.
3) Use browser_* tools to execute the request. Prefer stable locators and realistic flows.
4) Call generator_read_log if available, then use the log to craft the test.
Tool calls must match the tool schema exactly. If a field expects a list/array, pass a JSON array.
5) Return a single Playwright test file that matches the requested language and uses best practices.
Avoid deprecated APIs like networkidle waits.
Return only the test code in one fenced code block.".

Definition HEALER_PROMPT : str := py
"You are the Playwright test healer using MCP test tools.
Follow this flow:
1) Run tests with test_run to identify failures. Limit runs to the provided test file when possible.
2) For each failure, use test_debug and browser_* tools to diagnose.
3) Update the provided test code to fix issues and improve reliability.
4) If no changes are needed, respond with NO_CHANGES.
Tool calls must match the tool schema exactly. If a field expects a list/array, pass a JSON array.
Avoid deprecated APIs like networkidle waits.
Return only the updated test code in one fenced code block or NO_CHANGES.".

Definition nl : str := [newline].

(** [start_url or "None provided"]. *)
Definition url_text (start_url : option str) : str :=
  match start_url with
  | Some (c :: r) => c :: r
  | _ => py "None provided"
  end.

Definition build_plan_prompt (spec : str) (start_url : option str)
    (plan_path : str) : str :=
  py "Create a comprehensive test plan for the request below." ++ nl ++
  py "Start URL: " ++ url_text start_url ++ nl ++
  py "Plan path: " ++ plan_path ++ nl ++ nl ++
  py "Request:" ++ nl ++ spec.

Definition build_generation_prompt (spec : str) (start_url : option str)
    (plan_path plan_text output_path test_language : str) : str :=
  py "Create a Playwright test from the request and plan below." ++ nl ++
  py "Test language: " ++ test_language ++ nl ++
  py "Start URL: " ++ url_text start_url ++ nl ++
  py "Plan path: " ++ plan_path ++ nl ++
  py "Output path: " ++ output_path ++ nl ++ nl ++
  py "Request:" ++ nl ++ spec ++ nl ++ nl ++
  py "Plan:" ++ nl ++ plan_text.

Definition build_heal_prompt (spec plan_path plan_text test_path test_code : str)
  : str :=
  py "Heal the Playwright test using the plan and current code below." ++ nl ++
  py "Plan path: " ++ plan_path ++ nl ++
  py "Test path: " ++ test_path ++ nl ++ nl ++
  py "Request:" ++ nl ++ spec ++ nl ++ nl ++
  py "Plan:" ++ nl ++ plan_text ++ nl ++ nl ++
  py "Current test code:" ++ nl ++ test_code.

(** The synthetic plan used when the planner's answer is empty. *)
Definition PLAN_HEADER : str := py "# Plan" ++ nl ++ nl ++ py "Request:" ++ nl.

Definition fallback_plan (spec : str) : str := PLAN_HEADER ++ spec ++ nl.

Definition NO_CHANGES : str := py "NO_CHANGES".

(** ** Effects *)

Inductive message :=
| SystemMessage (content : str)
| HumanMessage (content : str).

(** What the workflow does to the outside world, in order. *)
Inductive event :=
| EMkdirParent (p : str)
| EWrite (p content : str)
| EClientNew (connections : gmap str pyval)
| EGetTools
| EInitModel (model_name : str)
| EInvoke (messages : list message)
| EClose.

Record state := State {
  files : gmap str str;
  trace : list event
}.

(** State and exceptions. *)
Definition M (A : Type) : Type := state -> (exc + A) * state.

#[global] Instance M_ret : MRet M := fun A x st => (inr x, st).

#[global] Instance M_bind : MBind M := fun A B f m st =>
  match m st with
  | (inr x, st') => f x st'
  | (inl e, st') => (inl e, st')
  end.

Definition raise {A} (e : exc) : M A := fun st => (inl e, st).

Definition lift {A} (r : exc + A) : M A := fun st => (r, st).

Definition emit (e : event) : M unit := fun st =>
  (inr tt, State (files st) (trace st ++ [e])).

(** [p.write_text(content)]. *)
Definition write_text (p content : str) : M unit := fun st =>
  (inr tt, State (<[p := content]> (files st)) (trace st ++ [EWrite p content])).

(** [try: body finally: closing]. *)
Definition try_finally {A} (body : M A) (closing : M unit) : M A := fun st =>
  match body st with
  | (r, st1) =>
      match closing st1 with
      | (inr _, st2) => (r, st2)
      | (inl e, st2) => (inl e, st2)
      end
  end.

(** The collaborators of one run.  [get_tools] is indexed by the session
    (0 for planning and generation, 1 for healing); [ainvoke] gives the
    content of the last message of an agent run started on the given
    messages.  Each of them may raise; creating directories, writing
    files, constructing the client, building the graph and closing the
    client are taken to succeed. *)
Record env := Env {
  now : datetime;
  config_file : str -> file_state;
  get_tools : nat -> option exc;
  init_chat_model : str -> option exc;
  ainvoke : list message -> exc + str
}.

Definition check (r : option exc) : M unit :=
  match r with
  | Some e => raise e
  | None => mret tt
  end.

Definition client_get_tools (E : env) (session : nat) : M unit :=
  emit EGetTools ≫= fun _ => check (get_tools E session).

Definition new_model (E : env) (model_name : str) : M unit :=
  emit (EInitModel model_name) ≫= fun _ => check (init_chat_model E model_name).

Definition graph_ainvoke (E : env) (messages : list message) : M str :=
  emit (EInvoke messages) ≫= fun _ => lift (ainvoke E messages).

Definition close_client : M unit := emit EClose.

(** ** The workflow *)

Definition WorkflowResult : Type := str * str * str * str * bool.

Definition run_workflow (E : env) (spec : str) (start_url output_path : option str)
    (test_language model_name mcp_config mcp_server : str) : M WorkflowResult :=
  let spec := strip spec in
  let request_id := build_request_id (now E) spec in
  let plan_path := plan_output_path request_id in
  let output_path :=
    match output_path with
    | Some p => p
    | None => default_output_path spec test_language (Some request_id)
    end in
  _ ← emit (EMkdirParent plan_path);
  _ ← emit (EMkdirParent output_path);
  server_config ← lift (load_mcp_server_config (config_file E mcp_config) mcp_server);
  connection ← lift (normalize_mcp_config server_config);
  _ ← emit (EClientNew {[ mcp_server := connection ]});
  '(plan_text, generation) ← try_finally
      (_ ← client_get_tools E 0;
       _ ← new_model E model_name;
       plan_reply ← graph_ainvoke E
         [SystemMessage PLANNER_PROMPT;
          HumanMessage (build_plan_prompt spec start_url plan_path)];
       let plan_text := extract_fenced_block plan_reply in
       let plan_text := if nonempty plan_text then plan_text else fallback_plan spec in
       _ ← write_text plan_path (plan_text ++ nl);
       generation ← graph_ainvoke E
         [SystemMessage GENERATOR_PROMPT;
          HumanMessage (build_generation_prompt spec start_url plan_path plan_text
                          output_path test_language)];
       mret (plan_text, generation))
      close_client;
  let test_code := extract_fenced_block generation in
  if nonempty test_code then
    _ ← write_text output_path (test_code ++ nl);
    server_config ← lift (load_mcp_server_config (config_file E mcp_config) mcp_server);
    connection ← lift (normalize_mcp_config server_config);
    _ ← emit (EClientNew {[ mcp_server := connection ]});
    heal_reply ← try_finally
      (_ ← client_get_tools E 1;
       _ ← new_model E model_name;
       graph_ainvoke E
         [SystemMessage HEALER_PROMPT;
          HumanMessage (build_heal_prompt spec plan_path plan_text output_path test_code)])
      close_client;
    let heal_text := strip heal_reply in
    if decide (upper heal_text = NO_CHANGES) then
      mret (plan_path, plan_text, output_path, test_code, false)
    else
      let healed_code := extract_fenced_block heal_text in
      if nonempty healed_code then
        let healed := if decide (healed_code = test_code) then false else true in
        _ ← write_text output_path (healed_code ++ nl);
        mret (plan_path, plan_text, output_path, healed_code, healed)
      else
        mret (plan_path, plan_text, output_path, test_code, false)
  else
    raise (ValueError (py "No test code returned by generator.")).

(** [run_workflow_sync]: an empty output path counts as none. *)
Definition run_workflow_sync (E : env) (spec : str) (start_url output_path : option str)
    (test_language model_name mcp_config mcp_server : str) : M WorkflowResult :=
  let path := match output_path with
              | Some (c :: r) => Some (c :: r)
              | _ => None
              end in
  run_workflow E spec start_url path test_language model_name mcp_config mcp_server.

(** ** The HTTP endpoint *)

Record GenerateRequest := {
  req_spec : str;
  req_start_url : option str;
  req_output_path : option str;
  req_test_language : str;
  req_model_name : str;
  req_mcp_config : str;
  req_mcp_server : str
}.

Record GenerateResponse := {
  plan_path : str;
  plan_text : str;
  test_path : str;
  test_code : str;
  healed : bool
}.

Record HTTPException := { status_code : Z; detail : str }.

(** [x or None] on an optional string. *)
Definition or_none (x : option str) : option str :=
  match x with
  | Some (c :: r) => Some (c :: r)
  | _ => None
  end.

(** [POST /generate]. *)
Definition generate_tests (E : env) (payload : GenerateRequest) (st : state)
  : (HTTPException + GenerateResponse) * state :=
  match run_workflow_sync E (req_spec payload) (or_none (req_start_url payload))
          (or_none (req_output_path payload)) (req_test_language payload)
          (req_model_name payload) (req_mcp_config payload) (req_mcp_server payload) st with
  | (inl e, st') => (inl {| status_code := 500; detail := exc_str e |}, st')
  | (inr (plan_path, plan_text, test_path, test_code, healed), st') =>
      (inr {| plan_path := plan_path; plan_text := plan_text;
              test_path := test_path; test_code := test_code;
              healed := healed |}, st')
  end.

(** ** Vocabulary for the properties *)

(** What [run_workflow] derives from its arguments before any phase runs. *)
Definition request_id_of (E : env) (spec : str) : str :=
  build_request_id (now E) (strip spec).

Definition plan_path_of (E : env) (spec : str) : str :=
  plan_output_path (request_id_of E spec).

Definition output_path_of (E : env) (spec : str) (output_path : option str)
    (test_language : str) : str :=
  match output_path with
  | Some p => p
  | None => default_output_path (strip spec) test_language (Some (request_id_of E spec))
  end.

(** The plan a planner reply stands for. *)
Definition plan_text_of (spec plan_reply : str) : str :=
  if nonempty (extract_fenced_block plan_reply) then extract_fenced_block plan_reply
  else fallback_plan (strip spec).

Definition plan_messages (E : env) (spec : str) (start_url : option str)
  : list message :=
  [SystemMessage PLANNER_PROMPT;
   HumanMessage (build_plan_prompt (strip spec) start_url (plan_path_of E spec))].

Definition generation_messages (E : env) (spec : str)
    (start_url output_path : option str) (test_language plan_text : str)
  : list message :=
  [SystemMessage GENERATOR_PROMPT;
   HumanMessage (build_generation_prompt (strip spec) start_url (plan_path_of E spec)
                   plan_text (output_path_of E spec output_path test_language)
                   test_language)].

Definition heal_messages (E : env) (spec : str) (output_path : option str)
    (test_language plan_text test_code : str) : list message :=
  [SystemMessage HEALER_PROMPT;
   HumanMessage (build_heal_prompt (strip spec) (plan_path_of E spec) plan_text
                   (output_path_of E spec output_path test_language) test_code)].

(** The configuration is accepted and yields [connection]. *)
Definition config_accepted (E : env) (mcp_config mcp_server : str)
    (connection : pyval) : Prop :=
  exists server_config,
    load_mcp_server_config (config_file E mcp_config) mcp_server = inr server_config /\
    normalize_mcp_config server_config = inr connection.

(** The first session opens and the planner answers [plan_reply]. *)
Definition plan_answered (E : env) (spec : str) (start_url : option str)
    (model_name mcp_config mcp_server : str) (connection : pyval)
    (plan_reply : str) : Prop :=
  config_accepted E mcp_config mcp_server connection /\
  get_tools E 0 = None /\
  init_chat_model E model_name = None /\
  ainvoke E (plan_messages E spec start_url) = inr plan_reply.

(** The generator then answers [generation]. *)
Definition generation_answered (E : env) (spec : str)
    (start_url output_path : option str)
    (test_language model_name mcp_config mcp_server : str) (connection : pyval)
    (plan_reply generation : str) : Prop :=
  plan_answered E spec start_url model_name mcp_config mcp_server connection plan_reply /\
  ainvoke E (generation_messages E spec start_url output_path test_language
               (plan_text_of spec plan_reply)) = inr generation.

(** The generator's answer holds code, the second session opens and the
    healer answers [heal_reply]. *)
Definition heal_answered (E : env) (spec : str)
    (start_url output_path : option str)
    (test_language model_name mcp_config mcp_server : str) (connection : pyval)
    (plan_reply generation heal_reply : str) : Prop :=
  generation_answered E spec start_url output_path test_language model_name
    mcp_config mcp_server connection plan_reply generation /\
  extract_fenced_block generation <> [] /\
  get_tools E 1 = None /\
  ainvoke E (heal_messages E spec output_path test_language
               (plan_text_of spec plan_reply)
               (extract_fenced_block generation)) = inr heal_reply.

(** The events of a run up to the end of the generate phase. *)
Definition generate_trace (E : env) (spec : str) (start_url output_path : option str)
    (test_language model_name mcp_server : str) (connection : pyval)
    (plan_reply : str) : list event :=
  [EMkdirParent (plan_path_of E spec);
   EMkdirParent (output_path_of E spec output_path test_language);
   EClientNew {[ mcp_server := connection ]};
   EGetTools;
   EInitModel model_name;
   EInvoke (plan_messages E spec start_url);
   EWrite (plan_path_of E spec) (plan_text_of spec plan_reply ++ nl);
   EInvoke (generation_messages E spec start_url output_path test_language
              (plan_text_of spec plan_reply));
   EClose].

(** The events of the heal phase up to the healer's answer. *)
Definition heal_trace (E : env) (spec : str) (output_path : option str)
    (test_language model_name mcp_server : str) (connection : pyval)
    (plan_reply generation : str) : list event :=
  [EWrite (output_path_of E spec output_path test_language)
          (extract_fenced_block generation ++ nl);
   EClientNew {[ mcp_server := connection ]};
   EGetTools;
   EInitModel model_name;
   EInvoke (heal_messages E spec output_path test_language
              (plan_text_of spec plan_reply) (extract_fenced_block generation));
   EClose].

(** The response is the no-change reply: [heal_text.upper() == "NO_CHANGES"]
    for the trimmed response. *)
Definition is_sentinel (r : str) : Prop := upper (strip r) = NO_CHANGES.

(** [sub in s]. *)
Fixpoint contains (sub s : str) : bool :=
  starts_with sub s ||
  match s with
  | [] => false
  | _ :: r => contains sub r
  end.

(** ** Sample collaborators *)

Definition sample_now : datetime :=
  {| year := 2024; month := 3; day := 9; hour := 7; minute := 5;
     second := 0; microsecond := 1234 |}%Z.

(** An agent whose answer depends on the phase only. *)
Definition sample_ainvoke (plan gen heal : str) (messages : list message)
  : exc + str :=
  match messages with
  | SystemMessage p :: _ =>
      if starts_with (py "You are an expert web test planner") p then inr plan
      else if starts_with (py "You are a Playwright test generator") p then inr gen
      else inr heal
  | _ => inl (ValueError (py "no system message"))
  end.

Definition sample_env (file : file_state) (plan gen heal : str) : env :=
  {| now := sample_now;
     config_file := fun _ => file;
     get_tools := fun _ => None;
     init_chat_model := fun _ => None;
     ainvoke := sample_ainvoke plan gen heal |}.

Definition stdio_connection : pyval :=
  PDict (<[py "command" := PStr (py "npx")]>
        (<[py "args" := PList [PStr (py "playwright"); PStr (py "run-test-mcp-server")]]>
        (<[py "transport" := PStr (py "stdio")]> ∅))).

Definition sample_request : str :=
  py "Test that clicking Login navigates to the dashboard".

Definition sample_plan_reply : str := py "```markdown
1. Open the login page
2. Click Login
```".

Definition sample_generation : str := py "```ts
test('login', async ({ page }) => { await page.click('text=Login'); });
```".

Definition sample_healed : str := py "Fixed the locator:
```ts
test('login', async ({ page }) => { await page.getByRole('button').click(); });
```
".

Definition empty_state : state := State ∅ [].

(** A configuration file that names an unsupported transport. *)
Definition grpc_config : gmap str pyval := {[ py "type" := PStr (py "grpc") ]}.

Definition grpc_file : file_state :=
  Parsed (PDict {[ py "servers" :=
                     PDict {[ py "playwright-test" := PDict grpc_config ]} ]}).

Definition sample_payload : GenerateRequest :=
  {| req_spec := sample_request;
     req_start_url := None;
     req_output_path := Some [];
     req_test_language := py "ts";
     req_model_name := py "openai:gpt-4.1";
     req_mcp_config := py ".vscode/mcp.json";
     req_mcp_server := py "playwright-test" |}.

(** ** Further vocabulary *)

(** Counting events of one kind. *)
Fixpoint count_events (f : event -> bool) (l : list event) : nat :=
  match l with
  | [] => 0
  | e :: r => (if f e then 1 else 0) + count_events f r
  end.

Definition is_client_new (e : event) : bool :=
  match e with EClientNew _ => true | _ => false end.

Definition is_close (e : event) : bool :=
  match e with EClose => true | _ => false end.

Definition backtick : ascii := "`"%char.

(** A token of a slug: a non-empty run of lower-case letters and digits. *)
Definition slug_token (t : str) : Prop :=
  t <> [] /\ Forall (fun c => is_lower c || is_digit c = true) t.

(** ** Closing a client, attribute by attribute *)

Module Client.

(** What calling a closer does: it raises, returns a plain value, or
    returns a coroutine whose awaiting finishes or raises. *)
Inductive call_result :=
| Raises (e : exc)
| Returns
| ReturnsCoroutine (awaited : option exc).

(** What [getattr(client, name, None)] finds when the attribute exists. *)
Inductive attribute :=
| NotCallable
| Callable (result : call_result).

Definition client : Type := str -> option attribute.

Inductive action :=
| Called (name : str)
| Awaited (name : str).

(** The loop of [close_client] over the names still to try: the actions
    performed and the exception raised, if any. *)
Fixpoint close_with (names : list str) (c : client) : list action * option exc :=
  match names with
  | [] => ([], None)
  | name :: rest =>
      match c name with
      | Some (Callable result) =>
          match result with
          | Raises e => ([Called name], Some e)
          | Returns => ([Called name], None)
          | ReturnsCoroutine awaited => ([Called name; Awaited name], awaited)
          end
      | _ => close_with rest c
      end
  end.

Definition close_client (c : client) : list action * option exc :=
  close_with [py "aclose"; py "close"] c.

Definition is_call (a : action) : bool :=
  match a with Called _ => true | Awaited _ => false end.

Definition has_callable (c : client) (name : str) : bool :=
  match c name with Some (Callable _) => true | _ => false end.

End Client.

(** ** The settings of the chat front end *)

(** [if key not in st.session_state: st.session_state.key = value]. *)
Definition set_if_missing (key : str) (value : pyval) (session : gmap str pyval)
  : gmap str pyval :=
  match session !! key with
  | Some _ => session
  | None => <[key := value]> session
  end.

Definition init_state (session : gmap str pyval) : gmap str pyval :=
  set_if_missing (py "mcp_server") (PStr (py "playwright-test"))
  (set_if_missing (py "mcp_config") (PStr (py ".vscode/mcp.json"))
  (set_if_missing (py "output_path") (PStr [])
  (set_if_missing (py "start_url") (PStr [])
  (set_if_missing (py "test_language") (PStr (py "ts"))
  (set_if_missing (py "model_name") (PStr (py "openai:gpt-4.1"))
  (set_if_missing (py "messages") (PList []) session)))))).

Definition settings_keys : list str :=
  [py "messages"; py "model_name"; py "test_language"; py "start_url";
   py "output_path"; py "mcp_config"; py "mcp_server"].

(** A configuration file whose entry is an HTTP server without a URL. *)
Definition http_no_url_file : file_state :=
  Parsed (PDict {[ py "servers" :=
                     PDict {[ py "playwright-test" :=
                                PDict {[ py "type" := PStr (py "http") ]} ]} ]}).

(** A run in which the healer finds nothing to change. *)
Definition noop_env : env :=
  sample_env Absent sample_plan_reply sample_generation NO_CHANGES.

(** An environment that differs from [E] by the tool listing and the agent. *)
Definition with_oracles (E : env) (tools : nat -> option exc)
    (agent : list message -> exc + str) : env :=
  Env (now E) (config_file E) tools (init_chat_model E) agent.

(** An agent that answers like [sample_ainvoke] but raises in the phase
    whose system prompt starts with [phase_prefix]. *)
Definition failing_agent (phase_prefix : str) (e : exc) (messages : list message)
  : exc + str :=
  match messages with
  | SystemMessage p :: _ =>
      if starts_with phase_prefix p then inl e
      else sample_ainvoke sample_plan_reply sample_generation NO_CHANGES messages
  | _ => inl e
  end.

Definition timeout_error : exc := Exc (py "TimeoutError") (py "tool server timed out").

(** A client that only offers a synchronous [close]. *)
Definition close_only_client : Client.client := fun name =>
  if decide (name = py "close") then Some (Client.Callable Client.Returns)
  else if decide (name = py "aclose") then Some Client.NotCallable
  else None.


(** * Properties *)

Example slugify_login :
  slugify (py "Test that clicking Login navigates to the dashboard")
  = py "test-that-clicking-login-navigates-to-the-dashboard".
Proof. reflexivity. Qed.

Example slugify_long :
  slugify (py "  A1 b,c;D  e_f  g h i j k ") = py "a1-b-c-d-e-f-g-h".
Proof. reflexivity. Qed.

Example slugify_symbols : slugify (py " ?! ") = py "generated-test".
Proof. reflexivity. Qed.

Example strftime_sample :
  strftime {| year := 2024; month := 3; day := 9; hour := 7; minute := 5;
              second := 0; microsecond := 1234 |}%Z = py "20240309-070500-001234".
Proof. reflexivity. Qed.

(** ** Characters *)

Ltac by_cases_on_char c :=
  destruct c as [[] [] [] [] [] [] [] []]; vm_compute; intuition congruence.


Lemma is_upper_lower_char c : is_upper (lower_char c) = false.
Proof. by_cases_on_char c. Qed.



Lemma space_not_backtick c : is_space c = true -> Ascii.eqb "`" c = false.
Proof. by_cases_on_char c. Qed.

Lemma space_not_tag c : is_space c = true -> is_tag_char c = false.
Proof. by_cases_on_char c. Qed.

Lemma newline_not_tag : is_tag_char newline = false.
Proof. reflexivity. Qed.

Lemma lower_upper_char c : lower_char (upper_char c) = lower_char c.
Proof. by_cases_on_char c. Qed.

Lemma upper_lower_char c : upper_char (lower_char c) = upper_char c.
Proof. by_cases_on_char c. Qed.

(** Comparing upper-cased texts is comparing them without regard to case. *)
Lemma upper_eq_iff_lower_eq s t : upper s = upper t <-> lower s = lower t.
Proof.
  assert (Hlu : forall u, lower (upper u) = lower u).
  { intros u. unfold lower, upper. rewrite map_map.
    apply map_ext. apply lower_upper_char. }
  assert (Hul : forall u, upper (lower u) = upper u).
  { intros u. unfold lower, upper. rewrite map_map.
    apply map_ext. apply upper_lower_char. }
  split; intros H.
  - rewrite <- (Hlu s), <- (Hlu t), H. reflexivity.
  - rewrite <- (Hul s), <- (Hul t), H. reflexivity.
Qed.

Lemma is_sentinel_case_insensitive r :
  is_sentinel r <-> lower (strip r) = py "no_changes".
Proof.
  unfold is_sentinel.
  change NO_CHANGES with (upper NO_CHANGES).
  rewrite upper_eq_iff_lower_eq. reflexivity.
Qed.

(** ** Request identifiers *)

Lemma lower_nil_iff s : lower s = [] <-> s = [].
Proof. destruct s; simpl; split; congruence. Qed.





(** Every token is a non-empty run of characters of the text that belong
    to the class. *)
Lemma findall_alnum_from_tokens (P : ascii -> Prop) cur s :
  Forall P cur -> Forall P s ->
  Forall (fun c => is_alnum c = true) cur ->
  Forall (fun t => t <> [] /\ Forall (fun c => is_alnum c = true /\ P c) t)
         (findall_alnum_from cur s).
Proof.
  revert cur. induction s as [|c r IH]; intros cur Hcur Hs Hal; simpl.
  - destruct cur as [|a cur']; constructor; [|constructor].
    split; [discriminate|].
    apply Forall_forall. intros x Hx.
    rewrite Forall_forall in Hcur, Hal. split; auto.
  - inversion Hs as [|? ? Hc Hr]; subst.
    destruct (is_alnum c) eqn:Hc'.
    + apply IH; auto; apply Forall_app; split; auto.
    + destruct cur as [|a cur'].
      * apply IH; auto.
      * constructor; [|apply IH; auto].
        split; [discriminate|].
        apply Forall_forall. intros x Hx.
        rewrite Forall_forall in Hcur, Hal. split; auto.
Qed.

Lemma join_chars (P : ascii -> Prop) sep parts :
  Forall P sep -> Forall (Forall P) parts -> Forall P (join sep parts).
Proof.
  intros Hsep. induction parts as [|p ps IH]; intros H; simpl.
  - constructor.
  - inversion H; subst. destruct ps as [|q qs]; auto.
    apply Forall_app; split; auto. apply Forall_app; split; auto.
Qed.

Lemma lower_no_upper s : Forall (fun c => is_upper c = false) (lower s).
Proof.
  induction s; simpl; constructor; auto using is_upper_lower_char.
Qed.




(** *** Timestamps *)

Lemma digits_length w n : length (digits w n) = w.
Proof.
  revert n. induction w as [|w IH]; intros n; simpl; [reflexivity|].
  rewrite length_app, IH. simpl. lia.
Qed.


Lemma digit_char_inj a b :
  (0 <= a < 10)%Z -> (0 <= b < 10)%Z -> digit_char a = digit_char b -> a = b.
Proof.
  intros Ha Hb H. unfold digit_char in H.
  apply (f_equal N_of_ascii) in H.
  rewrite !N_ascii_embedding in H by lia. lia.
Qed.


Lemma digits_inj w a b :
  (0 <= a < 10 ^ Z.of_nat w)%Z -> (0 <= b < 10 ^ Z.of_nat w)%Z ->
  digits w a = digits w b -> a = b.
Proof.
  revert a b. induction w as [|w IH]; intros a b Ha Hb H.
  - simpl in Ha, Hb. lia.
  - rewrite Nat2Z.inj_succ, Z.pow_succ_r in Ha, Hb by lia.
    simpl in H. apply app_inj_tail in H as [Hhi Hlo].
    apply digit_char_inj in Hlo; [|apply Z.mod_pos_bound; lia ..].
    apply IH in Hhi.
    + rewrite (Z.div_mod a 10), (Z.div_mod b 10) by lia. congruence.
    + split; [apply Z.div_pos; lia | apply Z.div_lt_upper_bound; lia].
    + split; [apply Z.div_pos; lia | apply Z.div_lt_upper_bound; lia].
Qed.


Lemma strftime_inj d1 d2 :
  valid_datetime d1 -> valid_datetime d2 -> strftime d1 = strftime d2 -> d1 = d2.
Proof.
  intros (Hy1 & Hm1 & Hd1 & Hh1 & Hn1 & Hs1 & Hu1)
         (Hy2 & Hm2 & Hd2 & Hh2 & Hn2 & Hs2 & Hu2) H.
  unfold strftime in H.
  apply app_inj_1 in H as [Ey H]; [|rewrite !digits_length; reflexivity].
  apply app_inj_1 in H as [Em H]; [|rewrite !digits_length; reflexivity].
  apply app_inj_1 in H as [Ed H]; [|rewrite !digits_length; reflexivity].
  apply app_inv_head in H.
  apply app_inj_1 in H as [Eh H]; [|rewrite !digits_length; reflexivity].
  apply app_inj_1 in H as [En H]; [|rewrite !digits_length; reflexivity].
  apply app_inj_1 in H as [Es H]; [|rewrite !digits_length; reflexivity].
  apply app_inv_head in H.
  apply digits_inj in Ey, Em, Ed, Eh, En, Es, H; simpl; try lia.
  destruct d1, d2; simpl in *; congruence.
Qed.



(** ** Trimming *)

Lemma lstrip_length s : length (lstrip s) <= length s.
Proof.
  induction s as [|c r IH]; simpl; [lia|].
  destruct (is_space c); simpl; lia.
Qed.

Lemma lstrip_fixed_head c r : lstrip (c :: r) = c :: r -> is_space c = false.
Proof.
  simpl. destruct (is_space c); [|reflexivity].
  intros H. pose proof (lstrip_length r) as Hl.
  rewrite H in Hl. simpl in Hl. lia.
Qed.

Lemma lstrip_idem s : lstrip (lstrip s) = lstrip s.
Proof.
  induction s as [|c r IH]; simpl; [reflexivity|].
  destruct (is_space c) eqn:Hc; [exact IH|].
  simpl. rewrite Hc. reflexivity.
Qed.

Lemma lstrip_snoc u c :
  lstrip (u ++ [c]) =
  match lstrip u with
  | [] => if is_space c then [] else [c]
  | _ => lstrip u ++ [c]
  end.
Proof.
  induction u as [|a u IH]; simpl; [reflexivity|].
  destruct (is_space a); [exact IH | reflexivity].
Qed.

Lemma rstrip_cons c t :
  rstrip (c :: t) =
  match rstrip t with
  | [] => if is_space c then [] else [c]
  | _ => c :: rstrip t
  end.
Proof.
  unfold rstrip. simpl. rewrite lstrip_snoc.
  destruct (lstrip (rev t)) as [|a l] eqn:E; simpl.
  - destruct (is_space c); reflexivity.
  - rewrite rev_app_distr. simpl.
    destruct (rev l ++ [a]) eqn:E'; [|reflexivity].
    apply app_eq_nil in E' as [_ E']. discriminate.
Qed.

Lemma rstrip_idem t : rstrip (rstrip t) = rstrip t.
Proof.
  unfold rstrip. rewrite rev_involutive, lstrip_idem. reflexivity.
Qed.

Lemma lstrip_rstrip t : lstrip t = t -> lstrip (rstrip t) = rstrip t.
Proof.
  destruct t as [|c t']; [reflexivity|].
  intros H. apply lstrip_fixed_head in H.
  rewrite rstrip_cons.
  destruct (rstrip t'); rewrite ?H; simpl; rewrite H; reflexivity.
Qed.

Lemma strip_idem s : strip (strip s) = strip s.
Proof.
  unfold strip.
  rewrite (lstrip_rstrip (lstrip s)) by apply lstrip_idem.
  apply rstrip_idem.
Qed.

Lemma rstrip_strip s : rstrip (strip s) = strip s.
Proof. unfold strip. apply rstrip_idem. Qed.

(** ** The fence pattern *)

Lemma until_fence_eq s :
  until_fence s =
  if starts_with fence s then Some []
  else match s with
       | [] => None
       | c :: r => cons c <$> until_fence r
       end.
Proof. destruct s; reflexivity. Qed.

Lemma search_fenced_eq s :
  search_fenced s =
  match match_fenced_here s with
  | Some g => Some g
  | None => match s with
            | [] => None
            | _ :: r => search_fenced r
            end
  end.
Proof. destruct s; reflexivity. Qed.

Lemma starts_with_sound p s :
  starts_with p s = true -> exists post, s = p ++ post.
Proof.
  revert s. induction p as [|a p IH]; intros s H; simpl in *.
  - exists s. reflexivity.
  - destruct s as [|b s]; [discriminate|].
    apply andb_true_iff in H as [Hab H].
    apply Ascii.eqb_eq in Hab. subst b.
    destruct (IH _ H) as [post ->]. exists post. reflexivity.
Qed.

Lemma starts_with_app p post : starts_with p (p ++ post) = true.
Proof.
  induction p as [|a p IH]; simpl; [reflexivity|].
  rewrite Ascii.eqb_refl. exact IH.
Qed.

Lemma starts_with_snoc p s c :
  p <> [] -> Forall (fun a => Ascii.eqb a c = false) p ->
  starts_with p (s ++ [c]) = starts_with p s.
Proof.
  revert s. induction p as [|a p IH]; intros s Hne Hp; [congruence|].
  inversion Hp as [|? ? Hac Hp']; subst.
  destruct s as [|b s]; cbn [starts_with app].
  - rewrite Hac. reflexivity.
  - destruct p as [|a' p']; [reflexivity|].
    rewrite IH; [reflexivity | discriminate | assumption].
Qed.

Lemma starts_with_fence_snoc s c :
  Ascii.eqb "`" c = false ->
  starts_with fence (s ++ [c]) = starts_with fence s.
Proof.
  intros Hc. apply starts_with_snoc; [discriminate|].
  unfold fence, py. cbn [list_ascii_of_string]. repeat constructor; assumption.
Qed.

Lemma starts_with_fence_space s c :
  is_space c = true -> starts_with fence (c :: s) = false.
Proof.
  intros Hc. unfold fence, py. cbn [list_ascii_of_string starts_with].
  rewrite (space_not_backtick c Hc). reflexivity.
Qed.

Lemma until_fence_snoc s c :
  Ascii.eqb "`" c = false -> until_fence (s ++ [c]) = until_fence s.
Proof.
  intros Hc. induction s as [|a s IH].
  - rewrite (until_fence_eq ([] ++ [c])), starts_with_fence_snoc by assumption.
    reflexivity.
  - rewrite (until_fence_eq ((a :: s) ++ [c])), (until_fence_eq (a :: s)).
    rewrite starts_with_fence_snoc by assumption.
    simpl. rewrite IH. reflexivity.
Qed.

Lemma skip_tag_snoc t c :
  is_tag_char c = false -> skip_tag (t ++ [c]) = skip_tag t ++ [c].
Proof.
  intros Hc. induction t as [|a t IH]; simpl.
  - rewrite Hc. reflexivity.
  - destruct (is_tag_char a); [exact IH | reflexivity].
Qed.

Lemma match_fenced_here_snoc s c :
  is_space c = true -> match_fenced_here (s ++ [c]) = match_fenced_here s.
Proof.
  intros Hc. unfold match_fenced_here.
  rewrite starts_with_fence_snoc by (apply space_not_backtick; assumption).
  destruct (starts_with fence s) eqn:Hs; [|reflexivity].
  apply starts_with_sound in Hs as [post ->].
  change (drop 3 ((fence ++ post) ++ [c])) with (post ++ [c]).
  change (drop 3 (fence ++ post)) with post.
  rewrite skip_tag_snoc by (apply space_not_tag; assumption).
  destruct (skip_tag post) as [|a body]; simpl.
  - destruct (Ascii.eqb c newline); reflexivity.
  - rewrite until_fence_snoc by (apply space_not_backtick; assumption).
    reflexivity.
Qed.

Lemma search_fenced_snoc s c :
  is_space c = true -> search_fenced (s ++ [c]) = search_fenced s.
Proof.
  intros Hc. induction s as [|a s IH].
  - rewrite (search_fenced_eq ([] ++ [c])), match_fenced_here_snoc by assumption.
    reflexivity.
  - rewrite (search_fenced_eq ((a :: s) ++ [c])), (search_fenced_eq (a :: s)).
    rewrite match_fenced_here_snoc by assumption.
    simpl. rewrite IH. reflexivity.
Qed.

Lemma search_fenced_cons s c :
  is_space c = true -> search_fenced (c :: s) = search_fenced s.
Proof.
  intros Hc. rewrite search_fenced_eq.
  unfold match_fenced_here.
  rewrite starts_with_fence_space by assumption. reflexivity.
Qed.

Lemma search_fenced_lstrip s : search_fenced (lstrip s) = search_fenced s.
Proof.
  induction s as [|c r IH]; simpl lstrip; [reflexivity|].
  destruct (is_space c) eqn:Hc; [|reflexivity].
  rewrite search_fenced_cons by assumption. exact IH.
Qed.

Lemma search_fenced_rstrip s : search_fenced (rstrip s) = search_fenced s.
Proof.
  unfold rstrip. rewrite <- (rev_involutive s) at 2.
  induction (rev s) as [|c u IH]; simpl lstrip; [reflexivity|].
  destruct (is_space c) eqn:Hc; [|reflexivity].
  simpl rev. rewrite search_fenced_snoc by assumption. exact IH.
Qed.

Lemma search_fenced_strip s : search_fenced (strip s) = search_fenced s.
Proof.
  unfold strip. rewrite search_fenced_rstrip. apply search_fenced_lstrip.
Qed.

(** Trimming the text first does not change what is extracted from it. *)
Lemma extract_fenced_block_strip s :
  extract_fenced_block (strip s) = extract_fenced_block s.
Proof.
  unfold extract_fenced_block. rewrite search_fenced_strip.
  destruct (search_fenced s); [reflexivity | apply strip_idem].
Qed.

(** *** The search against the language of the pattern *)

Lemma until_fence_sound s g :
  until_fence s = Some g -> exists post, s = g ++ fence ++ post.
Proof.
  revert g. induction s as [|c r IH]; intros g; rewrite until_fence_eq.
  - destruct (starts_with fence []) eqn:E; [|discriminate].
    intros [= <-]. apply starts_with_sound in E. exact E.
  - destruct (starts_with fence (c :: r)) eqn:E.
    + intros [= <-]. apply starts_with_sound in E. exact E.
    + destruct (until_fence r) as [g'|]; [|discriminate].
      intros [= <-]. destruct (IH g' eq_refl) as [post ->].
      exists post. reflexivity.
Qed.

Lemma until_fence_complete body post :
  is_Some (until_fence (body ++ fence ++ post)).
Proof.
  induction body as [|c body IH]; rewrite until_fence_eq.
  - change ([] ++ fence ++ post) with (fence ++ post).
    rewrite starts_with_app. eauto.
  - destruct (starts_with fence ((c :: body) ++ fence ++ post)); [eauto|].
    cbn [app]. destruct IH as [g ->]. eauto.
Qed.

Lemma skip_tag_sound s :
  exists tag, s = tag ++ skip_tag s /\ Forall (fun c => is_tag_char c = true) tag.
Proof.
  induction s as [|c r (tag & E & F)]; simpl.
  - exists []. split; [reflexivity | constructor].
  - destruct (is_tag_char c) eqn:Hc.
    + exists (c :: tag). split; [simpl; congruence | constructor; assumption].
    + exists []. split; [reflexivity | constructor].
Qed.

Lemma skip_tag_complete tag c r :
  Forall (fun a => is_tag_char a = true) tag -> is_tag_char c = false ->
  skip_tag (tag ++ c :: r) = c :: r.
Proof.
  intros F Hc. induction F as [|a tag Ha F IH]; simpl.
  - rewrite Hc. reflexivity.
  - rewrite Ha. exact IH.
Qed.

Lemma match_fenced_here_sound s g :
  match_fenced_here s = Some g ->
  exists tag post,
    s = fence ++ tag ++ newline :: g ++ fence ++ post /\
    Forall (fun c => is_tag_char c = true) tag.
Proof.
  unfold match_fenced_here.
  destruct (starts_with fence s) eqn:E; [|discriminate].
  apply starts_with_sound in E as [rest ->].
  change (drop 3 (fence ++ rest)) with rest.
  destruct (skip_tag_sound rest) as (tag & Erest & F).
  destruct (skip_tag rest) as [|c body]; [discriminate|].
  destruct (Ascii.eqb c newline) eqn:Hc; [|discriminate].
  apply Ascii.eqb_eq in Hc. subst c.
  intros H. apply until_fence_sound in H as [post ->].
  exists tag, post. split; [congruence | assumption].
Qed.

Lemma match_fenced_here_complete tag body post :
  Forall (fun c => is_tag_char c = true) tag ->
  is_Some (match_fenced_here (fence ++ tag ++ newline :: body ++ fence ++ post)).
Proof.
  intros F. unfold match_fenced_here.
  rewrite starts_with_app.
  change (drop 3 (fence ++ ?r)) with r.
  rewrite skip_tag_complete by (assumption || reflexivity).
  rewrite Ascii.eqb_refl. apply until_fence_complete.
Qed.

Lemma search_fenced_sound s g :
  search_fenced s = Some g ->
  exists pre tag post,
    s = pre ++ fence ++ tag ++ newline :: g ++ fence ++ post /\
    Forall (fun c => is_tag_char c = true) tag.
Proof.
  induction s as [|c r IH]; rewrite search_fenced_eq.
  - destruct (match_fenced_here []) eqn:E; [|discriminate].
    intros [= <-]. apply match_fenced_here_sound in E as (tag & post & E & F).
    exists [], tag, post. auto.
  - destruct (match_fenced_here (c :: r)) eqn:E.
    + intros [= <-]. apply match_fenced_here_sound in E as (tag & post & E & F).
      exists [], tag, post. auto.
    + intros H. destruct (IH H) as (pre & tag & post & -> & F).
      exists (c :: pre), tag, post. auto.
Qed.

Lemma search_fenced_complete s : has_fenced_block s -> is_Some (search_fenced s).
Proof.
  intros (pre & tag & body & post & -> & F).
  induction pre as [|c pre IH]; rewrite search_fenced_eq.
  - cbn [app].
    destruct (match_fenced_here_complete tag body post F) as [g ->]. eauto.
  - destruct (match_fenced_here _); [eauto|]. exact IH.
Qed.

(** The search finds a block exactly when the text has one. *)
Lemma search_fenced_none_iff s : search_fenced s = None <-> ~ has_fenced_block s.
Proof.
  split.
  - intros H Hb. apply search_fenced_complete in Hb as [g Hg]. congruence.
  - intros H. destruct (search_fenced s) as [g|] eqn:E; [|reflexivity].
    exfalso. apply H. apply search_fenced_sound in E as (pre & tag & post & E & F).
    exists pre, tag, g, post. auto.
Qed.

(** C6.  On a text without a fenced block, extraction is trimming, and
    extracting a second time changes nothing. *)
Theorem extract_fenced_block_unfenced (x : str) :
  ~ has_fenced_block x ->
  extract_fenced_block x = strip x /\
  extract_fenced_block (extract_fenced_block x) = extract_fenced_block x.
Proof.
  intros H. apply search_fenced_none_iff in H.
  assert (E : extract_fenced_block x = strip x).
  { unfold extract_fenced_block. rewrite H. reflexivity. }
  split; [exact E|].
  rewrite E at 1. apply extract_fenced_block_strip.
Qed.

Lemma extract_fenced_block_unfenced_witness :
  let x := py "  await page.goto('/login');
 " in
  ~ has_fenced_block x /\
  extract_fenced_block x = py "await page.goto('/login');" /\
  extract_fenced_block (extract_fenced_block x) = extract_fenced_block x.
Proof.
  intros x.
  assert (H : ~ has_fenced_block x) by (apply search_fenced_none_iff; reflexivity).
  split; [exact H|].
  destruct (extract_fenced_block_unfenced x H) as [E1 E2].
  split; [reflexivity | exact E2].
Defined.

(** ** The workflow *)

Ltac unfold_workflow :=
  cbv beta iota zeta delta
    [run_workflow run_workflow_sync mbind M_bind mret M_ret emit lift raise check
     write_text try_finally client_get_tools new_model graph_ainvoke
     close_client files trace].

Lemma run_workflow_verdict E spec su op lang model cfg srv conn
    plan_reply generation heal_reply st :
  heal_answered E spec su op lang model cfg srv conn plan_reply generation heal_reply ->
  let pp := plan_path_of E spec in
  let out := output_path_of E spec op lang in
  let pt := plan_text_of spec plan_reply in
  let code := extract_fenced_block generation in
  let st2 := State (<[out := code ++ nl]> (<[pp := pt ++ nl]> (files st)))
                   (trace st
                    ++ generate_trace E spec su op lang model srv conn plan_reply
                    ++ heal_trace E spec op lang model srv conn plan_reply generation) in
  run_workflow E spec su op lang model cfg srv st =
  if decide (upper (strip heal_reply) = NO_CHANGES)
  then (inr (pp, pt, out, code, false), st2)
  else match extract_fenced_block (strip heal_reply) with
       | [] => (inr (pp, pt, out, code, false), st2)
       | c :: r =>
           (inr (pp, pt, out, c :: r,
                 if decide (c :: r = code) then false else true),
            State (<[out := (c :: r) ++ nl]> (files st2))
                  (trace st2 ++ [EWrite out ((c :: r) ++ nl)]))
       end.
Proof.
  intros ((((sc & Hload & Hnorm) & Ht0 & Hm & Hplan) & Hgen) & Hcode & Ht1 & Hheal).
  destruct st as [fs tr].
  intros pp out pt code st2. subst st2 code pp out pt.
  unfold heal_messages in Hheal. unfold generation_messages in Hgen.
  unfold plan_messages in Hplan.
  unfold generate_trace, heal_trace, plan_messages, generation_messages,
    heal_messages.
  unfold plan_text_of, plan_path_of, output_path_of, request_id_of in *.
  unfold_workflow.
  rewrite Hload, Hnorm, Ht0, Hm, Hplan, Hgen.
  destruct (extract_fenced_block generation) as [|c0 code0]; [congruence|].
  change (nonempty (c0 :: code0)) with true. cbv beta iota.
  rewrite Ht1, Hheal.
  destruct (decide (upper (strip heal_reply) = NO_CHANGES)).
  - f_equal. f_equal. rewrite <- !app_assoc. reflexivity.
  - destruct (extract_fenced_block (strip heal_reply)) as [|c r].
    + f_equal. f_equal. rewrite <- !app_assoc. reflexivity.
    + change (nonempty (c :: r)) with true. cbv beta iota.
      f_equal. f_equal. rewrite <- !app_assoc. reflexivity.
Qed.

Example sample_run :
  fst (run_workflow (sample_env Absent sample_plan_reply sample_generation sample_healed)
         sample_request None None (py "ts") (py "openai:gpt-4.1")
         (py ".vscode/mcp.json") (py "playwright-test") empty_state)
  = inr (py "specs/test-that-clicking-login-navigates-to-the-dashboard-20240309-070500-001234-plan.md",
         py "1. Open the login page
2. Click Login",
         py "tests/test-that-clicking-login-navigates-to-the-dashboard-20240309-070500-001234.spec.ts",
         py "test('login', async ({ page }) => { await page.getByRole('button').click(); });",
         true).
Proof. vm_compute. reflexivity. Qed.

(** A sample run that reaches the healer's verdict. *)
Lemma sample_heal_answered heal_reply :
  heal_answered (sample_env Absent sample_plan_reply sample_generation heal_reply)
    sample_request None None (py "ts") (py "openai:gpt-4.1")
    (py ".vscode/mcp.json") (py "playwright-test") stdio_connection
    sample_plan_reply sample_generation heal_reply.
Proof.
  repeat split; try reflexivity.
  - exists default_server_config. split; reflexivity.
  - discriminate.
Qed.







(** *** Every completed run *)

(** One case split on the innermost scrutinee of a stuck [match]. *)
Ltac case_step H :=
  match type of H with
  | context [match ?x with _ => _ end] =>
      lazymatch x with
      | context [match _ with _ => _ end] => fail
      | _ => destruct x eqn:?
      end
  end.

Lemma run_workflow_file E spec su op lang model cfg srv st pp pt out code h st' :
  run_workflow E spec su op lang model cfg srv st = (inr (pp, pt, out, code, h), st') ->
  files st' !! out = Some (code ++ nl).
Proof.
  destruct st as [fs tr]. intros H. revert H. unfold_workflow. intros H.
  repeat (case_step H; try discriminate H).
  all: inversion H; subst; cbn [files]; apply lookup_insert_eq.
Qed.



(** *** Empty answers *)







(** ** Configuration *)

Lemma run_workflow_config_error E spec su op lang model cfg srv sc e st :
  load_mcp_server_config (config_file E cfg) srv = inr sc ->
  normalize_mcp_config sc = inl e ->
  run_workflow E spec su op lang model cfg srv st =
    (inl e, State (files st)
                  (trace st ++ [EMkdirParent (plan_path_of E spec);
                                EMkdirParent (output_path_of E spec op lang)])).
Proof.
  intros Hload Hnorm. destruct st as [fs tr].
  unfold plan_path_of, output_path_of, request_id_of.
  unfold_workflow. rewrite Hload, Hnorm.
  f_equal. f_equal. rewrite <- !app_assoc. reflexivity.
Qed.





(** C10.  A record without a type, or of type stdio, normalizes to the
    stdio connection made of its command (npx when absent), its argument
    list (empty when absent) and the stdio transport; no error is raised. *)
Theorem normalize_stdio (m : gmap str pyval) :
  m !! py "type" = None \/ m !! py "type" = Some (PStr (py "stdio")) ->
  normalize_mcp_config (PDict m) =
    inr (PDict (<[py "command" := default (PStr (py "npx")) (m !! py "command")]>
               (<[py "args" := default (PList []) (m !! py "args")]>
               (<[py "transport" := PStr (py "stdio")]> ∅)))).
Proof.
  intros H. unfold normalize_mcp_config.
  destruct H as [-> | ->]; cbn [default from_option id]; unfold PStr;
    (destruct (decide (AStr (py "stdio") = AStr (py "stdio"))); [reflexivity | congruence]).
Qed.

Lemma normalize_stdio_witness :
  normalize_mcp_config (PDict {[ py "args" := PList [PStr (py "run-test-mcp-server")] ]}) =
    inr (PDict (<[py "command" := PStr (py "npx")]>
               (<[py "args" := PList [PStr (py "run-test-mcp-server")]]>
               (<[py "transport" := PStr (py "stdio")]> ∅)))).
Proof.
  refine (eq_trans
    (normalize_stdio {[ py "args" := PList [PStr (py "run-test-mcp-server")] ]} _) _).
  - left. vm_compute. reflexivity.
  - vm_compute. reflexivity.
Defined.

Example normalize_empty :
  normalize_mcp_config (PDict ∅) =
    inr (PDict (<[py "command" := PStr (py "npx")]>
               (<[py "args" := PList []]>
               (<[py "transport" := PStr (py "stdio")]> ∅)))).
Proof. vm_compute. reflexivity. Qed.

Example normalize_http :
  normalize_mcp_config
    (PDict (<[py "type" := PStr (py "http")]>
           (<[py "url" := PStr (py "http://localhost:8931/mcp")]> ∅))) =
    inr (PDict (<[py "url" := PStr (py "http://localhost:8931/mcp")]>
               (<[py "transport" := PStr (py "streamable_http")]> ∅))).
Proof. vm_compute. reflexivity. Qed.

(** ** The endpoint *)

(** C8.  When the workflow raises, the endpoint answers with one HTTP 500
    error whose detail is [str] of the exception, and with no response
    record. *)
Theorem generate_tests_failure E payload st e st' :
  run_workflow_sync E (req_spec payload) (or_none (req_start_url payload))
    (or_none (req_output_path payload)) (req_test_language payload)
    (req_model_name payload) (req_mcp_config payload) (req_mcp_server payload) st
    = (inl e, st') ->
  generate_tests E payload st = (inl {| status_code := 500; detail := exc_str e |}, st') /\
  (forall response st2, generate_tests E payload st <> (inr response, st2)).
Proof.
  intros H. unfold generate_tests. rewrite H.
  split; [reflexivity | intros response st2; discriminate].
Qed.

Lemma generate_tests_failure_witness :
  let E := sample_env grpc_file sample_plan_reply sample_generation sample_healed in
  let st' := State ∅ [EMkdirParent (plan_path_of E sample_request);
                      EMkdirParent (output_path_of E sample_request None (py "ts"))] in
  generate_tests E sample_payload empty_state =
    (inl {| status_code := 500; detail := py "Unsupported MCP server type: grpc" |}, st') /\
  (forall response st2, generate_tests E sample_payload empty_state <> (inr response, st2)).
Proof.
  intros E st'.
  apply (generate_tests_failure E sample_payload empty_state
           (ValueError (py "Unsupported MCP server type: grpc")) st').
  apply (run_workflow_config_error E sample_request None None (py "ts")
           (py "openai:gpt-4.1") (py ".vscode/mcp.json") (py "playwright-test")
           (PDict grpc_config)); vm_compute; reflexivity.
Defined.

(** * Further properties *)

(** ** Extraction *)

(** X1.  Blank characters around the text do not change what is
    extracted from it. *)
Theorem extract_ignores_surrounding_blanks (s : str) :
  extract_fenced_block (strip s) = extract_fenced_block s.
Proof.
  unfold extract_fenced_block.
  rewrite search_fenced_strip.
  destruct (search_fenced s) as [g|]; [reflexivity|].
  apply strip_idem.
Qed.

(** X2.  What is extracted never starts or ends with a blank character. *)
Theorem extract_is_trimmed (s : str) :
  lstrip (extract_fenced_block s) = extract_fenced_block s /\
  rstrip (extract_fenced_block s) = extract_fenced_block s /\
  strip (extract_fenced_block s) = extract_fenced_block s.
Proof.
  assert (H : forall t, lstrip (strip t) = strip t /\ rstrip (strip t) = strip t
                        /\ strip (strip t) = strip t).
  { intros t. split; [|split].
    - unfold strip. apply lstrip_rstrip, lstrip_idem.
    - apply rstrip_strip.
    - apply strip_idem. }
  unfold extract_fenced_block. destruct (search_fenced s); apply H.
Qed.

Lemma starts_with_app_l p a b :
  length p <= length a -> starts_with p (a ++ b) = starts_with p a.
Proof.
  revert a. induction p as [|x p IH]; intros a Hl; [reflexivity|].
  destruct a as [|y a]; [simpl in Hl; lia|].
  cbn [app starts_with]. rewrite IH by (simpl in Hl; lia). reflexivity.
Qed.

(** A position of [x] where no fence starts, even one running into two
    following backticks, stays so whatever follows [x ++ "``"]. *)
Lemma starts_with_fence_inside c x r :
  starts_with fence ((c :: x) ++ py "``") = false ->
  starts_with fence ((c :: x) ++ fence ++ r) = false.
Proof.
  intros H.
  change ((c :: x) ++ fence ++ r) with ((c :: x) ++ py "``" ++ backtick :: r).
  rewrite app_assoc, starts_with_app_l; [exact H|].
  rewrite length_app. simpl. lia.
Qed.

Lemma until_fence_first body post :
  contains fence (body ++ py "``") = false ->
  until_fence (body ++ fence ++ post) = Some body.
Proof.
  induction body as [|c body IH]; intros H; rewrite until_fence_eq.
  - change ([] ++ fence ++ post) with (fence ++ post).
    rewrite starts_with_app. reflexivity.
  - cbn [app contains] in H. apply orb_false_iff in H as [H1 H2].
    rewrite (starts_with_fence_inside c body post) by exact H1.
    cbn [app]. rewrite IH by exact H2. reflexivity.
Qed.

Lemma search_fenced_skip pre r :
  contains fence (pre ++ py "``") = false ->
  search_fenced (pre ++ fence ++ r) = search_fenced (fence ++ r).
Proof.
  induction pre as [|c pre IH]; intros H; [reflexivity|].
  cbn [app contains] in H. apply orb_false_iff in H as [H1 H2].
  rewrite search_fenced_eq. unfold match_fenced_here.
  rewrite (starts_with_fence_inside c pre r) by exact H1.
  cbn [app]. apply IH. exact H2.
Qed.

(** X3.  For a text made of a lead without fence, an opening fence with
    any language tag, a line feed, a body, a closing fence and anything
    after it, where no fence starts inside the body, what is extracted is
    the trimmed body. *)
Theorem extract_fenced_body (pre tag body post : str) :
  contains fence (pre ++ py "``") = false ->
  Forall (fun c => is_tag_char c = true) tag ->
  contains fence (body ++ py "``") = false ->
  extract_fenced_block (pre ++ fence ++ tag ++ newline :: body ++ fence ++ post)
  = strip body.
Proof.
  intros Hpre Htag Hbody. unfold extract_fenced_block.
  rewrite search_fenced_skip by exact Hpre.
  rewrite search_fenced_eq. unfold match_fenced_here.
  rewrite starts_with_app.
  change (drop 3 (fence ++ ?r)) with r.
  rewrite skip_tag_complete by (assumption || reflexivity).
  rewrite Ascii.eqb_refl, until_fence_first by exact Hbody.
  reflexivity.
Qed.

Lemma extract_fenced_body_witness :
  extract_fenced_block
    (py "Here is the test with a `locator`:
" ++ fence ++ py "ts" ++ newline :: py "
  await page.goto(`${base}/login`);
" ++ fence ++ py "
Let me know. ``` ```")
  = py "await page.goto(`${base}/login`);".
Proof.
  refine (eq_trans (extract_fenced_body _ _ _ _ _ _ _) _);
    [ vm_compute; reflexivity
    | repeat constructor
    | vm_compute; reflexivity
    | vm_compute; reflexivity ].
Defined.

(** X4.  When the text has a fenced block, what is extracted is the
    trimmed body of one of its blocks, never the trimmed whole text. *)
Theorem extract_of_fenced_text (s : str) :
  has_fenced_block s ->
  exists pre tag body post,
    s = pre ++ fence ++ tag ++ newline :: body ++ fence ++ post /\
    Forall (fun c => is_tag_char c = true) tag /\
    extract_fenced_block s = strip body.
Proof.
  intros H. apply search_fenced_complete in H as [g Hg].
  destruct (search_fenced_sound s g Hg) as (pre & tag & post & E & F).
  exists pre, tag, g, post. split; [exact E|]. split; [exact F|].
  unfold extract_fenced_block. rewrite Hg. reflexivity.
Qed.

Lemma extract_of_fenced_text_witness :
  exists pre tag body post,
    sample_healed = pre ++ fence ++ tag ++ newline :: body ++ fence ++ post /\
    Forall (fun c => is_tag_char c = true) tag /\
    extract_fenced_block sample_healed = strip body.
Proof.
  apply (extract_of_fenced_text sample_healed).
  exists (py "Fixed the locator:
"), (py "ts"),
    (py "test('login', async ({ page }) => { await page.getByRole('button').click(); });
"), (py "
").
  split; [reflexivity | repeat constructor].
Defined.

Lemma lstrip_blank s : Forall (fun c => is_space c = true) s -> lstrip s = [].
Proof.
  induction 1 as [|c r Hc _ IH]; simpl; [reflexivity|]. rewrite Hc. exact IH.
Qed.

(** X5.  A text of blank characters only, the empty text included, yields
    the empty string. *)
Theorem extract_of_blank_text (s : str) :
  Forall (fun c => is_space c = true) s -> extract_fenced_block s = [].
Proof.
  intros H. unfold extract_fenced_block.
  rewrite <- search_fenced_lstrip. unfold strip.
  rewrite (lstrip_blank s H). reflexivity.
Qed.

Lemma extract_of_blank_text_witness :
  extract_fenced_block (py "
   ") = [].
Proof.
  apply (extract_of_blank_text (py "
   ")).
  repeat constructor.
Defined.

(** ** Slugs and paths *)


Lemma lower_fixed s : Forall (fun c => is_upper c = false) s -> lower s = s.
Proof.
  induction 1 as [|c r Hc _ IH]; simpl; [reflexivity|].
  unfold lower_char at 1. rewrite Hc. f_equal. exact IH.
Qed.



Lemma slug_letter c :
  is_alnum c = true -> is_upper c = false -> is_lower c || is_digit c = true.
Proof. by_cases_on_char c. Qed.

Lemma slug_letter_alnum c :
  is_lower c || is_digit c = true -> is_alnum c = true /\ is_upper c = false.
Proof. by_cases_on_char c. Qed.

Lemma slugify_tokens text :
  exists ts, slugify text = join (py "-") ts /\
             1 <= length ts <= 8 /\ Forall slug_token ts.
Proof.
  unfold slugify.
  assert (H : Forall slug_token (findall_alnum (lower text))).
  { eapply Forall_impl;
      [apply (findall_alnum_from_tokens (fun c => is_upper c = false));
         [constructor | apply lower_no_upper | constructor]|].
    intros t [Hne Ht]. split; [exact Hne|].
    eapply Forall_impl; [exact Ht|]. intros c [H1 H2]. apply slug_letter; assumption. }
  destruct (findall_alnum (lower text)) as [|t ts] eqn:E.
  - exists [py "generated"; py "test"]. split; [reflexivity|].
    split; [simpl; lia|].
    repeat constructor; discriminate.
  - exists (take 8 (t :: ts)). split; [reflexivity|]. split.
    + rewrite length_take. cbn [length]. lia.
    + apply Forall_take. exact H.
Qed.

(** X7.  A slug is one to eight non-empty tokens of lower-case letters and
    digits joined by single hyphens; so it neither starts nor ends with a
    hyphen and has no two hyphens in a row. *)
Theorem slugify_shape (text : str) :
  exists ts, slugify text = join (py "-") ts /\
             1 <= length ts <= 8 /\
             Forall (fun t => t <> [] /\
                      Forall (fun c => is_lower c || is_digit c = true) t) ts.
Proof.
  destruct (slugify_tokens text) as (ts & Hslug & Hlen & Hts).
  exists ts. split; [exact Hslug|]. split; [exact Hlen|].
  eapply Forall_impl; [exact Hts|].
  intros t [Hne Ht]. split; assumption.
Qed.

Lemma findall_alnum_from_run cur t rest :
  Forall (fun c => is_alnum c = true) t ->
  findall_alnum_from cur (t ++ rest) = findall_alnum_from (cur ++ t) rest.
Proof.
  intros H. revert cur. induction H as [|c t Hc _ IH]; intros cur.
  - rewrite app_nil_r. reflexivity.
  - cbn [app findall_alnum_from]. rewrite Hc, IH, <- app_assoc. reflexivity.
Qed.

Lemma findall_alnum_join ts :
  Forall slug_token ts -> findall_alnum (join (py "-") ts) = ts.
Proof.
  unfold findall_alnum.
  induction 1 as [|t ts [Hne Ht] Hts IH]; [reflexivity|].
  assert (Hal : Forall (fun c => is_alnum c = true) t).
  { eapply Forall_impl; [exact Ht|]. intros c Hc. apply slug_letter_alnum, Hc. }
  destruct ts as [|t' ts'].
  - cbn [join]. pose proof (findall_alnum_from_run [] t [] Hal) as Hr.
    rewrite app_nil_r in Hr. cbn [app] in Hr. rewrite Hr.
    destruct t; [congruence | reflexivity].
  - change (join (py "-") (t :: t' :: ts'))
      with (t ++ "-"%char :: join (py "-") (t' :: ts')).
    rewrite findall_alnum_from_run by exact Hal.
    cbn [app findall_alnum_from].
    change (is_alnum "-") with false. cbv iota.
    rewrite IH. destruct t; [congruence | reflexivity].
Qed.

Lemma slugify_join ts :
  1 <= length ts <= 8 -> Forall slug_token ts ->
  slugify (join (py "-") ts) = join (py "-") ts.
Proof.
  intros Hlen Hts. unfold slugify.
  rewrite lower_fixed.
  - rewrite findall_alnum_join by exact Hts.
    rewrite take_ge by lia.
    destruct ts; [simpl in Hlen; lia | reflexivity].
  - apply join_chars; [repeat constructor|].
    eapply Forall_impl; [exact Hts|]. intros t [_ Ht].
    eapply Forall_impl; [exact Ht|]. intros c Hc. apply slug_letter_alnum, Hc.
Qed.

(** X8.  Making a slug of a slug gives the same slug. *)
Theorem slugify_idempotent (text : str) : slugify (slugify text) = slugify text.
Proof.
  destruct (slugify_tokens text) as (ts & -> & Hlen & Hts).
  apply slugify_join; assumption.
Qed.

Lemma plan_output_path_inj a b : plan_output_path a = plan_output_path b -> a = b.
Proof.
  unfold plan_output_path. intros H.
  apply app_inv_head in H. apply app_inv_tail in H. exact H.
Qed.

Lemma default_output_path_inj s1 s2 lang a b :
  a <> [] -> b <> [] ->
  default_output_path s1 lang (Some a) = default_output_path s2 lang (Some b) -> a = b.
Proof.
  intros Ha Hb. unfold default_output_path.
  destruct a as [|x a]; [congruence|]. destruct b as [|y b]; [congruence|].
  intros H. apply app_inv_head in H.
  rewrite !app_assoc in H. apply app_inv_tail in H. apply app_inv_tail in H.
  exact H.
Qed.

Lemma default_output_path_not_plan s lang rid id :
  default_output_path s lang rid <> plan_output_path id.
Proof.
  unfold default_output_path, plan_output_path. intros H.
  apply (f_equal (fun l => head l)) in H. discriminate H.
Qed.

Lemma build_request_id_nonempty t s : build_request_id t s <> [].
Proof.
  unfold build_request_id. intros H. apply app_eq_nil in H as [_ H]. discriminate.
Qed.

Lemma build_request_id_inj t1 t2 s :
  valid_datetime t1 -> valid_datetime t2 ->
  build_request_id t1 s = build_request_id t2 s -> t1 = t2.
Proof.
  intros V1 V2 H. unfold build_request_id in H.
  apply app_inv_head in H. apply app_inv_head in H.
  apply strftime_inj; assumption.
Qed.

(** X9.  Two runs on the same request at different clock readings derive
    different plan paths and different test paths, and within a run the
    derived test path differs from the plan path. *)
Theorem derived_paths_distinct (E1 E2 : env) (spec lang : str) :
  valid_datetime (now E1) -> valid_datetime (now E2) -> now E1 <> now E2 ->
  plan_path_of E1 spec <> plan_path_of E2 spec /\
  output_path_of E1 spec None lang <> output_path_of E2 spec None lang /\
  output_path_of E1 spec None lang <> plan_path_of E1 spec.
Proof.
  intros V1 V2 Hne. unfold plan_path_of, output_path_of, request_id_of.
  split; [|split].
  - intros H. apply plan_output_path_inj in H.
    apply Hne. eapply build_request_id_inj; eassumption.
  - intros H. apply default_output_path_inj in H;
      try apply build_request_id_nonempty.
    apply Hne. eapply build_request_id_inj; eassumption.
  - apply default_output_path_not_plan.
Qed.

Lemma derived_paths_distinct_witness :
  let E1 := sample_env Absent [] [] [] in
  let E2 := Env {| year := 2024; month := 3; day := 9; hour := 7; minute := 5;
                   second := 0; microsecond := 1235 |}%Z
                (fun _ => Absent) (fun _ => None) (fun _ => None)
                (sample_ainvoke [] [] []) in
  plan_path_of E1 sample_request <> plan_path_of E2 sample_request /\
  output_path_of E1 sample_request None (py "ts")
    <> output_path_of E2 sample_request None (py "ts") /\
  output_path_of E1 sample_request None (py "ts") <> plan_path_of E1 sample_request.
Proof.
  intros E1 E2.
  apply (derived_paths_distinct E1 E2 sample_request (py "ts")).
  - unfold valid_datetime. simpl. lia.
  - unfold valid_datetime. simpl. lia.
  - discriminate.
Defined.

(** ** Configuration, continued *)

Lemma truthy_default_server_config : truthy default_server_config = true.
Proof. vm_compute. reflexivity. Qed.

(** X10.  Whatever [load_mcp_server_config] returns is truthy, and it is
    either the built-in default or the entry stored under the server name
    in the [servers] object of the file. *)
Theorem load_mcp_server_config_result (file : file_state) (name : str) (v : pyval) :
  load_mcp_server_config file name = inr v ->
  truthy v = true /\
  (v = default_server_config \/
   exists d ss, file = Parsed (PDict d) /\
                d !! py "servers" = Some (PDict ss) /\ ss !! name = Some v).
Proof.
  unfold load_mcp_server_config.
  destruct file as [|e|data]; [|discriminate|].
  - intros [= <-]. split; [apply truthy_default_server_config | left; reflexivity].
  - destruct data as [a|l|d]; cbn [py_get]; try discriminate.
    destruct (d !! py "servers") as [servers|] eqn:Es; cbn [default from_option id].
    + destruct servers as [a|l|ss]; cbn [py_get]; try discriminate.
      destruct (ss !! name) as [server|] eqn:En; cbn [default from_option id].
      * destruct (truthy server) eqn:Et; intros [= <-].
        -- split; [exact Et|]. right. exists d, ss. auto.
        -- split; [apply truthy_default_server_config | left; reflexivity].
      * cbn [truthy]. intros [= <-].
        split; [apply truthy_default_server_config | left; reflexivity].
    + cbn [py_get]. rewrite lookup_empty. cbn [default from_option id truthy].
      intros [= <-].
      split; [apply truthy_default_server_config | left; reflexivity].
Qed.

Lemma load_mcp_server_config_result_witness :
  truthy (PDict grpc_config) = true /\
  (PDict grpc_config = default_server_config \/
   exists d ss, grpc_file = Parsed (PDict d) /\
                d !! py "servers" = Some (PDict ss) /\
                ss !! py "playwright-test" = Some (PDict grpc_config)).
Proof.
  apply (load_mcp_server_config_result grpc_file (py "playwright-test")).
  vm_compute. reflexivity.
Defined.

Lemma key_type_command : py "type" <> py "command". Proof. discriminate. Qed.
Lemma key_type_args : py "type" <> py "args". Proof. discriminate. Qed.
Lemma key_type_transport : py "type" <> py "transport". Proof. discriminate. Qed.
Lemma key_type_url : py "type" <> py "url". Proof. discriminate. Qed.
Lemma key_command_args : py "command" <> py "args". Proof. discriminate. Qed.
Lemma key_command_transport : py "command" <> py "transport". Proof. discriminate. Qed.
Lemma key_command_url : py "command" <> py "url". Proof. discriminate. Qed.
Lemma key_args_transport : py "args" <> py "transport". Proof. discriminate. Qed.
Lemma key_args_url : py "args" <> py "url". Proof. discriminate. Qed.
Lemma key_url_transport : py "url" <> py "transport". Proof. discriminate. Qed.

Create HintDb keys.
#[local] Hint Resolve key_type_command key_type_args key_type_transport key_type_url
  key_command_args key_command_transport key_command_url key_args_transport
  key_args_url key_url_transport : keys.
#[local] Hint Extern 1 (_ <> _) => apply not_eq_sym : keys.

Ltac lookup_keys :=
  repeat first
    [ rewrite lookup_insert_eq
    | rewrite lookup_insert_ne by auto 3 with keys
    | rewrite lookup_empty ].

(** X11.  A successful normalization yields a record without the [type]
    key, of one of two forms: the stdio form with a command and an
    argument list and no URL, or the HTTP form with a URL and neither
    command nor arguments. *)
Theorem normalize_mcp_config_result (server_config c : pyval) :
  normalize_mcp_config server_config = inr c ->
  exists d : gmap str pyval,
    c = PDict d /\ d !! py "type" = None /\
    ((d !! py "transport" = Some (PStr (py "stdio")) /\
      is_Some (d !! py "command") /\ is_Some (d !! py "args") /\
      d !! py "url" = None) \/
     (d !! py "transport" = Some (PStr (py "streamable_http")) /\
      is_Some (d !! py "url") /\
      d !! py "command" = None /\ d !! py "args" = None)).
Proof.
  unfold normalize_mcp_config.
  destruct server_config as [a|l|m]; try discriminate.
  destruct (default (PStr (py "stdio")) (m !! py "type")) as [a|l|m'];
    try discriminate.
  destruct (decide (a = AStr (py "stdio"))).
  - intros [= <-]. eexists. split; [reflexivity|].
    split; [lookup_keys; reflexivity|]. left.
    repeat split; lookup_keys; eauto.
  - destruct (decide (a = AStr (py "streamable_http") \/ a = AStr (py "http")));
      [|discriminate].
    unfold py_getitem. destruct (m !! py "url") as [u|]; [|discriminate].
    intros [= <-]. eexists. split; [reflexivity|].
    split; [lookup_keys; reflexivity|]. right.
    repeat split; lookup_keys; eauto.
Qed.

Lemma normalize_mcp_config_result_witness :
  exists d : gmap str pyval,
    stdio_connection = PDict d /\ d !! py "type" = None /\
    ((d !! py "transport" = Some (PStr (py "stdio")) /\
      is_Some (d !! py "command") /\ is_Some (d !! py "args") /\
      d !! py "url" = None) \/
     (d !! py "transport" = Some (PStr (py "streamable_http")) /\
      is_Some (d !! py "url") /\
      d !! py "command" = None /\ d !! py "args" = None)).
Proof.
  apply (normalize_mcp_config_result default_server_config stdio_connection).
  vm_compute. reflexivity.
Defined.

(** X12.  The kinds [http] and [streamable_http] are treated alike: with
    a URL both give the streamable-HTTP connection to it, without one both
    raise [KeyError] on [url]. *)
Theorem normalize_http_kinds (m : gmap str pyval) :
  let result :=
    match m !! py "url" with
    | Some u => inr (PDict (<[py "url" := u]>
                           (<[py "transport" := PStr (py "streamable_http")]> ∅)))
    | None => inl (KeyError (py "url"))
    end in
  normalize_mcp_config (PDict (<[py "type" := PStr (py "http")]> m)) = result /\
  normalize_mcp_config (PDict (<[py "type" := PStr (py "streamable_http")]> m)) = result.
Proof.
  intros result. subst result. unfold normalize_mcp_config, py_getitem.
  split; lookup_keys; cbn [default from_option id]; unfold PStr;
    (destruct (decide _) as [E|_]; [discriminate E|]);
    (destruct (decide _) as [_|N]; [|exfalso; apply N; auto]);
    destruct (m !! py "url"); reflexivity.
Qed.

(** X13.  Keys other than [type], [command], [args] and [url] play no
    part in normalization: they are dropped. *)
Theorem normalize_ignores_other_keys (m : gmap str pyval) (k : str) (v : pyval) :
  k <> py "type" -> k <> py "command" -> k <> py "args" -> k <> py "url" ->
  normalize_mcp_config (PDict (<[k := v]> m)) = normalize_mcp_config (PDict m).
Proof.
  intros H1 H2 H3 H4. unfold normalize_mcp_config, py_getitem.
  rewrite !lookup_insert_ne by assumption. reflexivity.
Qed.

Lemma normalize_ignores_other_keys_witness :
  normalize_mcp_config
    (PDict (<[py "env" := PDict {[ py "DEBUG" := PStr (py "pw:api") ]}]>
              {[ py "command" := PStr (py "node") ]}))
  = normalize_mcp_config (PDict {[ py "command" := PStr (py "node") ]}).
Proof.
  apply normalize_ignores_other_keys; discriminate.
Defined.

Lemma run_workflow_load_error E spec su op lang model cfg srv e st :
  load_mcp_server_config (config_file E cfg) srv = inl e ->
  run_workflow E spec su op lang model cfg srv st =
    (inl e, State (files st)
                  (trace st ++ [EMkdirParent (plan_path_of E spec);
                                EMkdirParent (output_path_of E spec op lang)])).
Proof.
  intros Hload. destruct st as [fs tr].
  unfold plan_path_of, output_path_of, request_id_of.
  unfold_workflow. rewrite Hload.
  f_equal. f_equal. rewrite <- !app_assoc. reflexivity.
Qed.

(** X14.  When reading or normalizing the configuration raises, whatever
    the error, the workflow raises it having created the two output
    directories and nothing else: no file is written and no client, model
    or agent is touched. *)
Theorem config_error_stops_run (E : env) (spec : str) (su op : option str)
    (lang model cfg srv : str) (e : exc) (st : state) :
  load_mcp_server_config (config_file E cfg) srv = inl e \/
  (exists sc, load_mcp_server_config (config_file E cfg) srv = inr sc /\
              normalize_mcp_config sc = inl e) ->
  run_workflow E spec su op lang model cfg srv st =
    (inl e, State (files st)
                  (trace st ++ [EMkdirParent (plan_path_of E spec);
                                EMkdirParent (output_path_of E spec op lang)])).
Proof.
  intros [H | (sc & H1 & H2)].
  - apply run_workflow_load_error. exact H.
  - eapply run_workflow_config_error; eassumption.
Qed.

Lemma config_error_stops_run_witness :
  let E := sample_env http_no_url_file sample_plan_reply sample_generation sample_healed in
  run_workflow E sample_request None None (py "ts") (py "openai:gpt-4.1")
    (py ".vscode/mcp.json") (py "playwright-test") empty_state =
    (inl (KeyError (py "url")),
     State ∅ [EMkdirParent (plan_path_of E sample_request);
              EMkdirParent (output_path_of E sample_request None (py "ts"))]).
Proof.
  intros E.
  apply (config_error_stops_run E sample_request None None (py "ts")
           (py "openai:gpt-4.1") (py ".vscode/mcp.json") (py "playwright-test")
           (KeyError (py "url")) empty_state).
  right. exists (PDict {[ py "type" := PStr (py "http") ]}).
  split; vm_compute; reflexivity.
Defined.

(** ** The workflow, whatever its outcome *)

(** X15.  Whatever happens in a run, it only adds events to the trace, and
    among the events it adds there are as many client closings as client
    constructions: no session outlives the run, also when a phase raises. *)
Theorem clients_are_closed (E : env) (spec : str) (su op : option str)
    (lang model cfg srv : str) (st : state) :
  exists added,
    trace (snd (run_workflow E spec su op lang model cfg srv st)) = trace st ++ added /\
    count_events is_client_new added = count_events is_close added.
Proof.
  destruct (run_workflow E spec su op lang model cfg srv st) as [res st'] eqn:H.
  destruct st as [fs tr]. revert H. unfold_workflow. intros H.
  repeat (case_step H).
  all: apply (f_equal snd) in H; cbn [snd] in H; subst st'; cbn [snd trace];
    eexists; split; [rewrite <- !app_assoc; cbn [app]; reflexivity | reflexivity].
Qed.

(** X16.  A run writes to no file but the plan file and the test file. *)
Theorem other_files_untouched (E : env) (spec : str) (su op : option str)
    (lang model cfg srv : str) (st : state) (p : str) :
  p <> plan_path_of E spec -> p <> output_path_of E spec op lang ->
  files (snd (run_workflow E spec su op lang model cfg srv st)) !! p = files st !! p.
Proof.
  unfold plan_path_of, output_path_of, request_id_of. intros Hp Ho.
  destruct (run_workflow E spec su op lang model cfg srv st) as [res st'] eqn:H.
  destruct st as [fs tr]. revert H. unfold_workflow. intros H.
  repeat (case_step H).
  all: apply (f_equal snd) in H; cbn [snd] in H; subst st'; cbn [snd files];
    rewrite ?lookup_insert_ne by (apply not_eq_sym; assumption); reflexivity.
Qed.

Lemma other_files_untouched_witness :
  let E := sample_env Absent sample_plan_reply sample_generation sample_healed in
  files (snd (run_workflow E sample_request None None (py "ts") (py "openai:gpt-4.1")
                (py ".vscode/mcp.json") (py "playwright-test")
                (State {[ py "README.md" := py "# AutoTest" ]} [])))
    !! py "README.md"
  = Some (py "# AutoTest").
Proof.
  intros E.
  refine (eq_trans
    (other_files_untouched E sample_request None None (py "ts") (py "openai:gpt-4.1")
       (py ".vscode/mcp.json") (py "playwright-test")
       (State {[ py "README.md" := py "# AutoTest" ]} []) (py "README.md") _ _) _).
  - intros H. apply (f_equal (fun l => head l)) in H. discriminate H.
  - intros H. apply (f_equal (fun l => head l)) in H. discriminate H.
  - vm_compute. reflexivity.
Defined.

(** ** Completed runs *)

Lemma strip_extract_fenced_block s :
  strip (extract_fenced_block s) = extract_fenced_block s.
Proof.
  unfold extract_fenced_block. destruct (search_fenced s); apply strip_idem.
Qed.

Lemma nonempty_true s : nonempty s = true -> s <> [].
Proof. destruct s; [discriminate | discriminate]. Qed.

Lemma fallback_plan_nonempty s : fallback_plan s <> [].
Proof. discriminate. Qed.

Lemma run_workflow_completed E spec su op lang model cfg srv st pp pt out code h st' :
  run_workflow E spec su op lang model cfg srv st = (inr (pp, pt, out, code, h), st') ->
  pp = plan_path_of E spec /\
  out = output_path_of E spec op lang /\
  code <> [] /\ strip code = code /\ pt <> [].
Proof.
  unfold plan_path_of, output_path_of, request_id_of.
  destruct st as [fs tr]. intros H. revert H. unfold_workflow. intros H.
  repeat (case_step H; try discriminate H).
  all: injection H as <- <- <- <- <- <-;
    repeat split;
    first [ apply strip_extract_fenced_block
          | apply fallback_plan_nonempty
          | apply nonempty_true; assumption ].
Qed.

(** X17.  A completed run returns the plan path and the test path it
    derived from its arguments, a test code that is non-empty and trimmed,
    and a non-empty plan. *)
Theorem completed_run_result (E : env) (spec : str) (su op : option str)
    (lang model cfg srv : str) (st : state)
    (pp pt out code : str) (h : bool) (st' : state) :
  run_workflow E spec su op lang model cfg srv st = (inr (pp, pt, out, code, h), st') ->
  pp = plan_path_of E spec /\
  out = output_path_of E spec op lang /\
  code <> [] /\ strip code = code /\ pt <> [].
Proof.
  intros H.
  destruct (run_workflow_completed _ _ _ _ _ _ _ _ _ _ _ _ _ _ _ H)
    as (Hpp & Hout & Hcode & Htrim & Hplan).
  split; [exact Hpp|]. split; [exact Hout|].
  split; [exact Hcode|]. split; [exact Htrim | exact Hplan].
Qed.

Lemma noop_run :
  run_workflow noop_env sample_request None None (py "ts") (py "openai:gpt-4.1")
    (py ".vscode/mcp.json") (py "playwright-test") empty_state =
  (inr (plan_path_of noop_env sample_request,
        plan_text_of sample_request sample_plan_reply,
        output_path_of noop_env sample_request None (py "ts"),
        extract_fenced_block sample_generation, false),
   State (<[output_path_of noop_env sample_request None (py "ts")
              := extract_fenced_block sample_generation ++ nl]>
          (<[plan_path_of noop_env sample_request
               := plan_text_of sample_request sample_plan_reply ++ nl]> ∅))
         (generate_trace noop_env sample_request None None (py "ts")
            (py "openai:gpt-4.1") (py "playwright-test") stdio_connection
            sample_plan_reply
          ++ heal_trace noop_env sample_request None (py "ts") (py "openai:gpt-4.1")
               (py "playwright-test") stdio_connection sample_plan_reply
               sample_generation)).
Proof.
  pose proof (run_workflow_verdict _ _ _ _ _ _ _ _ _ _ _ _ empty_state
                (sample_heal_answered NO_CHANGES)) as Hv.
  cbv zeta in Hv. rewrite decide_True in Hv by (vm_compute; reflexivity).
  exact Hv.
Qed.

Lemma completed_run_result_witness :
  plan_path_of noop_env sample_request = plan_path_of noop_env sample_request /\
  output_path_of noop_env sample_request None (py "ts")
    = output_path_of noop_env sample_request None (py "ts") /\
  extract_fenced_block sample_generation <> [] /\
  strip (extract_fenced_block sample_generation) = extract_fenced_block sample_generation /\
  plan_text_of sample_request sample_plan_reply <> [].
Proof.
  exact (completed_run_result _ _ _ _ _ _ _ _ _ _ _ _ _ _ _ noop_run).
Defined.

(** X18.  When no output path is supplied, a completed run leaves two
    different files: the plan file holds the returned plan and the test
    file the returned code, each followed by a line feed. *)
Theorem derived_run_files (E : env) (spec : str) (su : option str)
    (lang model cfg srv : str) (st : state)
    (pp pt out code : str) (h : bool) (st' : state) :
  run_workflow E spec su None lang model cfg srv st = (inr (pp, pt, out, code, h), st') ->
  pp <> out /\
  files st' !! pp = Some (pt ++ nl) /\
  files st' !! out = Some (code ++ nl).
Proof.
  intros H.
  assert (Hne : forall a b c d, default_output_path a b c <> plan_output_path d)
    by (intros; apply default_output_path_not_plan).
  split; [|split; [|eapply run_workflow_file; exact H]].
  - apply run_workflow_completed in H as (-> & -> & _).
    apply not_eq_sym, Hne.
  - destruct st as [fs tr]. revert H. unfold_workflow. intros H.
    repeat (case_step H; try discriminate H).
    all: injection H as <- <- <- <- <- <-; cbn [files];
      rewrite ?(lookup_insert_ne _ _ _ _ (Hne _ _ _ _));
      apply lookup_insert_eq.
Qed.

Lemma derived_run_files_witness :
  let pp := plan_path_of noop_env sample_request in
  let out := output_path_of noop_env sample_request None (py "ts") in
  exists st',
    snd (run_workflow noop_env sample_request None None (py "ts") (py "openai:gpt-4.1")
           (py ".vscode/mcp.json") (py "playwright-test") empty_state) = st' /\
    pp <> out /\
    files st' !! pp = Some (plan_text_of sample_request sample_plan_reply ++ nl) /\
    files st' !! out = Some (extract_fenced_block sample_generation ++ nl).
Proof.
  intros pp out. eexists. split; [rewrite noop_run; reflexivity|].
  exact (derived_run_files _ _ _ _ _ _ _ _ _ _ _ _ _ _ noop_run).
Defined.

(** X19.  In a run that reaches the healer's answer and completes, the
    healed flag is set exactly when the returned code differs from the
    code of the generate phase. *)
Theorem healed_iff_code_changed (E : env) (spec : str) (su op : option str)
    (lang model cfg srv : str) (conn : pyval)
    (plan_reply generation heal_reply : str) (st : state)
    (pp pt out code : str) (h : bool) (st' : state) :
  heal_answered E spec su op lang model cfg srv conn plan_reply generation heal_reply ->
  run_workflow E spec su op lang model cfg srv st = (inr (pp, pt, out, code, h), st') ->
  (h = true <-> code <> extract_fenced_block generation).
Proof.
  intros Hrun H.
  rewrite (run_workflow_verdict _ _ _ _ _ _ _ _ _ _ _ _ st Hrun) in H.
  cbv zeta in H.
  destruct (decide (upper (strip heal_reply) = NO_CHANGES)).
  - injection H as <- <- <- <- <- <-. split; [discriminate | congruence].
  - destruct (extract_fenced_block (strip heal_reply)) as [|c r].
    + injection H as <- <- <- <- <- <-. split; [discriminate | congruence].
    + destruct (decide (c :: r = extract_fenced_block generation)) as [Heq | Hne];
        injection H as <- <- <- <- <- <-.
      * split; [discriminate | congruence].
      * split; [intros _; exact Hne | reflexivity].
Qed.

Lemma healed_iff_code_changed_witness :
  false = true <->
  extract_fenced_block sample_generation <> extract_fenced_block sample_generation.
Proof.
  exact (healed_iff_code_changed _ _ _ _ _ _ _ _ _ _ _ _ _ _ _ _ _ _ _
           (sample_heal_answered NO_CHANGES) noop_run).
Defined.

(** ** Failing phases *)

Lemma run_workflow_heal_failure (E : env) (spec : str) (su op : option str)
    (lang model cfg srv : str) (conn : pyval) (plan_reply generation : str)
    (e : exc) (st : state) :
  generation_answered E spec su op lang model cfg srv conn plan_reply generation ->
  extract_fenced_block generation <> [] ->
  get_tools E 1 = Some e \/
  (get_tools E 1 = None /\
   ainvoke E (heal_messages E spec op lang (plan_text_of spec plan_reply)
                (extract_fenced_block generation)) = inl e) ->
  exists st',
    run_workflow E spec su op lang model cfg srv st = (inl e, st') /\
    files st' !! output_path_of E spec op lang
      = Some (extract_fenced_block generation ++ nl) /\
    last (trace st') = Some EClose.
Proof.
  intros (((sc & Hload & Hnorm) & Ht0 & Hm & Hplan) & Hgen) Hcode Hfail.
  destruct st as [fs tr].
  unfold heal_messages in Hfail. unfold generation_messages in Hgen.
  unfold plan_messages in Hplan.
  unfold plan_text_of, plan_path_of, output_path_of, request_id_of in *.
  unfold_workflow.
  rewrite Hload, Hnorm, Ht0, Hm, Hplan, Hgen.
  destruct (extract_fenced_block generation) as [|c0 code0]; [congruence|].
  change (nonempty (c0 :: code0)) with true. cbv beta iota.
  destruct Hfail as [Ht1 | [Ht1 Hheal]].
  - rewrite Ht1. eexists. split; [reflexivity|]. cbn [files trace].
    split; [apply lookup_insert_eq | apply last_snoc].
  - rewrite Ht1, Hheal. eexists. split; [reflexivity|]. cbn [files trace].
    split; [apply lookup_insert_eq | apply last_snoc].
Qed.


(** X20.  When the second session cannot list its tools, or the healing
    agent raises, the workflow raises that error after closing the client,
    and the test file written by the generate phase stays as it was
    written. *)
Theorem heal_failure_keeps_test_file (E : env) (spec : str) (su op : option str)
    (lang model cfg srv : str) (conn : pyval) (plan_reply generation : str)
    (e : exc) (st : state) :
  generation_answered E spec su op lang model cfg srv conn plan_reply generation ->
  extract_fenced_block generation <> [] ->
  get_tools E 1 = Some e \/
  (get_tools E 1 = None /\
   ainvoke E (heal_messages E spec op lang (plan_text_of spec plan_reply)
                (extract_fenced_block generation)) = inl e) ->
  exists st',
    run_workflow E spec su op lang model cfg srv st = (inl e, st') /\
    files st' !! output_path_of E spec op lang
      = Some (extract_fenced_block generation ++ nl) /\
    last (trace st') = Some EClose.
Proof.
  intros Hgen Hcode Hfail.
  destruct (run_workflow_heal_failure E spec su op lang model cfg srv conn
              plan_reply generation e st Hgen Hcode Hfail)
    as (st' & Hrun & Hfile & Hlast).
  exists st'. split; [exact Hrun|]. split; [exact Hfile | exact Hlast].
Qed.

Lemma heal_failure_keeps_test_file_witness :
  let E := with_oracles noop_env (fun _ => None)
             (failing_agent (py "You are the Playwright test healer") timeout_error) in
  exists st',
    run_workflow E sample_request None None (py "ts") (py "openai:gpt-4.1")
      (py ".vscode/mcp.json") (py "playwright-test") empty_state
      = (inl timeout_error, st') /\
    files st' !! output_path_of E sample_request None (py "ts")
      = Some (extract_fenced_block sample_generation ++ nl) /\
    last (trace st') = Some EClose.
Proof.
  intros E.
  apply (heal_failure_keeps_test_file E sample_request None None (py "ts")
           (py "openai:gpt-4.1") (py ".vscode/mcp.json") (py "playwright-test")
           stdio_connection sample_plan_reply sample_generation timeout_error
           empty_state).
  - repeat split; try reflexivity.
    exists default_server_config. split; reflexivity.
  - vm_compute. discriminate.
  - right. split; reflexivity.
Defined.

(** X21.  When the first session cannot list its tools, the model cannot
    be created, or the planning agent raises, the workflow raises that
    error after closing the client and has written no file. *)
Theorem early_failure_writes_nothing (E : env) (spec : str) (su op : option str)
    (lang model cfg srv : str) (conn : pyval) (e : exc) (st : state) :
  config_accepted E cfg srv conn ->
  get_tools E 0 = Some e \/
  (get_tools E 0 = None /\ init_chat_model E model = Some e) \/
  (get_tools E 0 = None /\ init_chat_model E model = None /\
   ainvoke E (plan_messages E spec su) = inl e) ->
  exists st',
    run_workflow E spec su op lang model cfg srv st = (inl e, st') /\
    files st' = files st /\
    last (trace st') = Some EClose.
Proof.
  intros (sc & Hload & Hnorm) Hfail.
  destruct st as [fs tr].
  unfold plan_messages in Hfail.
  unfold plan_path_of, output_path_of, request_id_of in *.
  unfold_workflow. rewrite Hload, Hnorm.
  destruct Hfail as [Ht0 | [[Ht0 Hm] | (Ht0 & Hm & Hplan)]].
  - rewrite Ht0. eexists. split; [reflexivity|].
    split; [reflexivity | apply last_snoc].
  - rewrite Ht0, Hm. eexists. split; [reflexivity|].
    split; [reflexivity | apply last_snoc].
  - rewrite Ht0, Hm, Hplan. eexists. split; [reflexivity|].
    split; [reflexivity | apply last_snoc].
Qed.

Lemma early_failure_writes_nothing_witness :
  let E := with_oracles noop_env (fun _ => Some timeout_error)
             (sample_ainvoke sample_plan_reply sample_generation NO_CHANGES) in
  exists st',
    run_workflow E sample_request None None (py "ts") (py "openai:gpt-4.1")
      (py ".vscode/mcp.json") (py "playwright-test") empty_state
      = (inl timeout_error, st') /\
    files st' = files empty_state /\
    last (trace st') = Some EClose.
Proof.
  intros E.
  apply (early_failure_writes_nothing E sample_request None None (py "ts")
           (py "openai:gpt-4.1") (py ".vscode/mcp.json") (py "playwright-test")
           stdio_connection timeout_error empty_state).
  - exists default_server_config. split; reflexivity.
  - left. reflexivity.
Defined.

(** X22.  When the generating agent raises, the workflow raises that
    error after closing the client; the plan file has been written and is
    the only file written. *)
Theorem generation_failure_keeps_plan (E : env) (spec : str) (su op : option str)
    (lang model cfg srv : str) (conn : pyval) (plan_reply : str)
    (e : exc) (st : state) :
  plan_answered E spec su model cfg srv conn plan_reply ->
  ainvoke E (generation_messages E spec su op lang (plan_text_of spec plan_reply))
    = inl e ->
  exists st',
    run_workflow E spec su op lang model cfg srv st = (inl e, st') /\
    files st' = <[plan_path_of E spec := plan_text_of spec plan_reply ++ nl]> (files st) /\
    last (trace st') = Some EClose.
Proof.
  intros ((sc & Hload & Hnorm) & Ht0 & Hm & Hplan) Hgen.
  destruct st as [fs tr].
  unfold generation_messages in Hgen. unfold plan_messages in Hplan.
  unfold plan_text_of, plan_path_of, output_path_of, request_id_of in *.
  unfold_workflow.
  rewrite Hload, Hnorm, Ht0, Hm, Hplan, Hgen.
  eexists. split; [reflexivity|]. split; [reflexivity | apply last_snoc].
Qed.

Lemma generation_failure_keeps_plan_witness :
  let E := with_oracles noop_env (fun _ => None)
             (failing_agent (py "You are a Playwright test generator") timeout_error) in
  exists st',
    run_workflow E sample_request None None (py "ts") (py "openai:gpt-4.1")
      (py ".vscode/mcp.json") (py "playwright-test") empty_state
      = (inl timeout_error, st') /\
    files st' = <[plan_path_of E sample_request
                    := plan_text_of sample_request sample_plan_reply ++ nl]>
                  (files empty_state) /\
    last (trace st') = Some EClose.
Proof.
  intros E.
  apply (generation_failure_keeps_plan E sample_request None None (py "ts")
           (py "openai:gpt-4.1") (py ".vscode/mcp.json") (py "playwright-test")
           stdio_connection sample_plan_reply timeout_error empty_state).
  - repeat split; try reflexivity.
    exists default_server_config. split; reflexivity.
  - reflexivity.
Defined.

(** X23.  Blank characters around the request make no difference to a
    run: the workflow on the trimmed request is the workflow on the
    request. *)
Theorem run_workflow_trims_request (E : env) (spec : str) (su op : option str)
    (lang model cfg srv : str) (st : state) :
  run_workflow E (strip spec) su op lang model cfg srv st
  = run_workflow E spec su op lang model cfg srv st.
Proof.
  unfold run_workflow.
  rewrite strip_idem.
  reflexivity.
Qed.

(** X24.  When the endpoint answers with a response record, the file at
    the returned test path holds the returned test code followed by a line
    feed, and neither the code nor the plan of the record is empty. *)
Theorem generate_tests_success (E : env) (payload : GenerateRequest) (st st' : state)
    (response : GenerateResponse) :
  generate_tests E payload st = (inr response, st') ->
  files st' !! test_path response = Some (test_code response ++ nl) /\
  test_code response <> [] /\ plan_text response <> [].
Proof.
  unfold generate_tests, run_workflow_sync.
  destruct (run_workflow _ _ _ _ _ _ _ _ _) as [[e | [[[[pp pt] out] code] h]] st1] eqn:H;
    [discriminate|].
  intros [= <- <-]. cbn [test_path test_code plan_text].
  split; [eapply run_workflow_file; exact H|].
  apply run_workflow_completed in H as (_ & _ & Hc & _ & Hp). auto.
Qed.

Lemma generate_tests_success_witness :
  exists response st',
    generate_tests noop_env sample_payload empty_state = (inr response, st') /\
    files st' !! test_path response = Some (test_code response ++ nl) /\
    test_code response <> [] /\ plan_text response <> [].
Proof.
  assert (H : exists response st',
             generate_tests noop_env sample_payload empty_state = (inr response, st')).
  { unfold generate_tests, run_workflow_sync. cbn [sample_payload req_spec
      req_start_url req_output_path req_test_language req_model_name
      req_mcp_config req_mcp_server or_none].
    rewrite noop_run. eauto. }
  destruct H as (response & st' & H). exists response, st'.
  split; [exact H|]. exact (generate_tests_success _ _ _ _ _ H).
Defined.

(** ** Closing a client *)

Lemma close_with_calls names c :
  count_occ bool_dec (map Client.is_call (fst (Client.close_with names c))) true <= 1.
Proof.
  induction names as [|name rest IH]; cbn [Client.close_with]; [simpl; lia|].
  destruct (c name) as [[|[e| |awaited]]|]; try exact IH; simpl; lia.
Qed.

(** X25.  [close_client] calls at most one closer, and when the client
    has a callable [aclose] that is the one it calls: [close] is left
    alone. *)
Theorem close_client_one_closer (c : Client.client) :
  count_occ bool_dec (map Client.is_call (fst (Client.close_client c))) true <= 1 /\
  (Client.has_callable c (py "aclose") = true ->
   ~ In (Client.Called (py "close")) (fst (Client.close_client c)) /\
   In (Client.Called (py "aclose")) (fst (Client.close_client c))).
Proof.
  split; [apply close_with_calls|].
  unfold Client.has_callable, Client.close_client. cbn [Client.close_with].
  destruct (c (py "aclose")) as [[|[e| |awaited]]|]; try discriminate; intros _.
  all: split; [|left; reflexivity].
  all: cbn [fst In]; intros H;
    repeat (destruct H as [H|H]; [discriminate H|]); exact H.
Qed.

Lemma close_client_one_closer_witness :
  let c : Client.client := fun name =>
    if decide (name = py "aclose")
    then Some (Client.Callable (Client.ReturnsCoroutine None))
    else Some (Client.Callable Client.Returns) in
  ~ In (Client.Called (py "close")) (fst (Client.close_client c)) /\
  In (Client.Called (py "aclose")) (fst (Client.close_client c)).
Proof.
  intros c.
  apply (proj2 (close_client_one_closer c)). reflexivity.
Defined.

(** X26.  A client with no callable [aclose] and no callable [close],
    missing or not callable, is left as it is: nothing is called and
    nothing is raised. *)
Theorem close_client_without_closer (c : Client.client) :
  Client.has_callable c (py "aclose") = false ->
  Client.has_callable c (py "close") = false ->
  Client.close_client c = ([], None).
Proof.
  unfold Client.has_callable, Client.close_client. cbn [Client.close_with].
  destruct (c (py "aclose")) as [[|r]|]; try discriminate; intros _;
    destruct (c (py "close")) as [[|r]|]; try discriminate; reflexivity.
Qed.

Lemma close_client_without_closer_witness :
  Client.close_client (fun name => if decide (name = py "close")
                                   then Some Client.NotCallable else None)
  = ([], None).
Proof.
  apply close_client_without_closer; reflexivity.
Defined.

(** ** Front-end settings *)

Lemma set_if_missing_keeps key value session k v :
  session !! k = Some v -> set_if_missing key value session !! k = Some v.
Proof.
  intros H. unfold set_if_missing.
  destruct (session !! key) eqn:E; [exact H|].
  rewrite lookup_insert_ne; [exact H|]. intros ->. congruence.
Qed.

Lemma set_if_missing_present key value session :
  is_Some (set_if_missing key value session !! key).
Proof.
  unfold set_if_missing. destruct (session !! key) eqn:E.
  - rewrite E. eauto.
  - rewrite lookup_insert_eq. eauto.
Qed.

Lemma set_if_missing_other key value session k :
  k <> key -> set_if_missing key value session !! k = session !! k.
Proof.
  intros H. unfold set_if_missing.
  destruct (session !! key); [reflexivity|].
  apply lookup_insert_ne. auto.
Qed.

Lemma set_if_missing_id key value session :
  is_Some (session !! key) -> set_if_missing key value session = session.
Proof. intros [v H]. unfold set_if_missing. rewrite H. reflexivity. Qed.

(** X27.  [init_state] never overwrites a setting: every entry of the
    session, a settings key or not, keeps its value. *)
Theorem init_state_keeps_entries (session : gmap str pyval) (k : str) (v : pyval) :
  session !! k = Some v -> init_state session !! k = Some v.
Proof.
  intros H. unfold init_state.
  repeat apply set_if_missing_keeps. exact H.
Qed.

Lemma init_state_keeps_entries_witness :
  init_state {[ py "test_language" := PStr (py "py") ]} !! py "test_language"
  = Some (PStr (py "py")).
Proof.
  apply init_state_keeps_entries. vm_compute. reflexivity.
Defined.

Lemma set_if_missing_still_present key value session k :
  is_Some (session !! k) -> is_Some (set_if_missing key value session !! k).
Proof. intros [v H]. exists v. apply set_if_missing_keeps. exact H. Qed.

Lemma init_state_present session :
  Forall (fun k => is_Some (init_state session !! k)) settings_keys.
Proof.
  unfold init_state, settings_keys.
  repeat constructor;
    repeat first [ apply set_if_missing_present
                 | apply set_if_missing_still_present ].
Qed.

(** X28.  After [init_state] the seven settings are all present, keys it
    does not know are as before, and running it again changes nothing. *)
Theorem init_state_complete (session : gmap str pyval) :
  Forall (fun k => is_Some (init_state session !! k)) settings_keys /\
  (forall k, ~ In k settings_keys -> init_state session !! k = session !! k) /\
  init_state (init_state session) = init_state session.
Proof.
  pose proof (init_state_present session) as Hp.
  split; [exact Hp|]. split.
  - intros k Hk. unfold init_state.
    rewrite !set_if_missing_other; [reflexivity|..];
      intros ->; apply Hk; unfold settings_keys; simpl; tauto.
  - unfold settings_keys in Hp.
    repeat (apply Forall_cons in Hp as [? Hp]).
    remember (init_state session) as s eqn:Es. clear Es.
    unfold init_state.
    rewrite !set_if_missing_id; [reflexivity|..];
      repeat apply set_if_missing_still_present; assumption.
Qed.

Lemma init_state_complete_witness :
  init_state ∅ !! py "theme" = (∅ : gmap str pyval) !! py "theme" /\
  init_state (init_state ∅) = init_state ∅.
Proof.
  destruct (init_state_complete ∅) as (_ & H2 & H3).
  split; [apply H2 | exact H3].
  unfold settings_keys. cbn [In]. intros H.
  repeat (destruct H as [H|H]; [discriminate H|]). exact H.
Defined.

(** ** The endpoint, continued *)

(** X29.  When the heal phase fails, the endpoint answers with the HTTP
    500 error of that failure although the generated test is on disk: the
    file at the test path holds the generated code followed by a line
    feed. *)
Theorem generate_tests_heal_failure (E : env) (payload : GenerateRequest)
    (conn : pyval) (plan_reply generation : str) (e : exc) (st : state) :
  let spec := req_spec payload in
  let su := or_none (req_start_url payload) in
  let op := or_none (req_output_path payload) in
  let lang := req_test_language payload in
  generation_answered E spec su op lang (req_model_name payload)
    (req_mcp_config payload) (req_mcp_server payload) conn plan_reply generation ->
  extract_fenced_block generation <> [] ->
  get_tools E 1 = Some e \/
  (get_tools E 1 = None /\
   ainvoke E (heal_messages E spec op lang (plan_text_of spec plan_reply)
                (extract_fenced_block generation)) = inl e) ->
  exists st',
    generate_tests E payload st
      = (inl {| status_code := 500; detail := exc_str e |}, st') /\
    files st' !! output_path_of E spec op lang
      = Some (extract_fenced_block generation ++ nl).
Proof.
  intros spec su op lang Hgen Hcode Hfail.
  destruct (run_workflow_heal_failure E spec su op lang _ _ _ conn plan_reply
              generation e st Hgen Hcode Hfail) as (st' & Hrun & Hfile & _).
  exists st'. split; [|exact Hfile].
  unfold generate_tests, run_workflow_sync.
  fold spec su lang.
  replace (match or_none (req_output_path payload) with
           | Some (c :: r) => Some (c :: r)
           | _ => None
           end) with op
    by (subst op; destruct (req_output_path payload) as [[|c r]|]; reflexivity).
  rewrite Hrun. reflexivity.
Qed.

Lemma generate_tests_heal_failure_witness :
  let E := with_oracles noop_env (fun _ => None)
             (failing_agent (py "You are the Playwright test healer") timeout_error) in
  exists st',
    generate_tests E sample_payload empty_state
      = (inl {| status_code := 500; detail := py "tool server timed out" |}, st') /\
    files st' !! output_path_of E sample_request None (py "ts")
      = Some (extract_fenced_block sample_generation ++ nl).
Proof.
  intros E.
  apply (generate_tests_heal_failure E sample_payload stdio_connection
           sample_plan_reply sample_generation timeout_error empty_state).
  - repeat split; try reflexivity.
    exists default_server_config. split; reflexivity.
  - vm_compute. discriminate.
  - right. split; reflexivity.
Defined.
